(** * CompManager: composition-strategy selection and the safe-mode state

    A shallow embedding of [displayengine/libs/core/comp_manager.cpp]
    (namespace [sde]).  Every member function of [CompManager] becomes a
    computation over an explicit state: the manager's own fields, the heap of
    [CompManagerDevice] objects behind the opaque handles, the state of the
    resource manager and of the two strategy objects, and a chronological
    trace of the calls that leave the manager and of the stores to the three
    shared fields [registered_displays_], [configured_displays_] and
    [safe_mode_].  The [SCOPE_LOCK] at the head of every entry point
    serialises the calls, so each one is modelled as running alone. *)

From Stdlib Require Import ZArith List Bool Lia.
From stdpp Require Import base option gmap.
Import ListNotations.

(** ** Plain data *)

(** [DisplayError].  The source names [kErrorNone] and [kErrorMemory]; every
    other enumerator of the header is a [kErrorCode]. *)
Inductive DisplayError : Type :=
| kErrorNone
| kErrorMemory
| kErrorCode (code : nat).

(** The C++ test [error != kErrorNone]. *)
Definition is_error (error : DisplayError) : bool :=
  match error with
  | kErrorNone => false
  | _ => true
  end.

(** Modelled from the spec: the [DeviceType] enumeration is declared in a
    header that is not part of the sources; the spec gives "a small fixed
    enumeration, e.g. primary/external/virtual". *)
Inductive DeviceType : Type :=
| kPrimary
| kHDMI
| kVirtual.

(** The enumerator's integer value, used as a bit position. *)
Definition type_index (type : DeviceType) : Z :=
  match type with
  | kPrimary => 0
  | kHDMI => 1
  | kVirtual => 2
  end.

(** Modelled from the spec: the macros [SET_BIT] and [CLEAR_BIT] come from
    [utils/constants.h], which is not part of the sources; they set and clear
    one bit of a bit-set ("sets the type's bit", "clears the type's bit").
    With three display types a 32-bit field never wraps, see
    [SET_BIT_no_wrap] and [CLEAR_BIT_no_wrap] below. *)
Definition SET_BIT (value : Z) (type : DeviceType) : Z :=
  Z.lor value (Z.shiftl 1 (type_index type)).

Definition CLEAR_BIT (value : Z) (type : DeviceType) : Z :=
  Z.land value (Z.lnot (Z.shiftl 1 (type_index type))).

(** Membership and inclusion of display-type bit-sets. *)
Definition has_type (value : Z) (type : DeviceType) : bool :=
  Z.testbit value (type_index type).

Definition subset_bits (a b : Z) : Prop := Z.land a b = a.

(** Opaque handles ([void *]) and opaque payloads. *)
Definition Handle : Type := nat.
Definition LibHandle : Type := nat.
Definition HWResourceInfo : Type := nat.
Definition HWDeviceAttributes : Type := nat.

Record StrategyConstraints : Type := mkConstraints {
  safe_mode : bool
}.

(** [HWLayersInfo]: the manager reads [flags] only; [composition] stands for
    the composition plan the strategy writes for the current attempt. *)
Record HWLayersInfo : Type := mkInfo {
  flags : Z;
  composition : nat
}.

(** [HWLayers]: [info] plus the hardware configuration the resource manager
    fills in on [Acquire]. *)
Record HWLayers : Type := mkLayers {
  info : HWLayersInfo;
  config : nat
}.

Definition set_info (hw_layers : HWLayers) (i : HWLayersInfo) : HWLayers :=
  mkLayers i (config hw_layers).

Record CompManagerDevice : Type := mkDevice {
  constraints : StrategyConstraints;
  res_mgr_device : Handle;
  device_type : DeviceType
}.

(** [new CompManagerDevice()]: a value-initialised object. *)
Definition new_CompManagerDevice : CompManagerDevice :=
  mkDevice (mkConstraints false) 0%nat kPrimary.

(** What [strategy_intf_] can point to: the object handed out by the loaded
    library, or the member [strategy_default_]. *)
Inductive StrategyRef : Type :=
| LoadedStrategy
| DefaultStrategy.

(** ** The collaborators *)

(** The resource manager [res_mgr_], over its own state [R]. *)
Record ResManager (R : Type) : Type := mkResManager {
  rm_Init : HWResourceInfo -> R -> DisplayError * R;
  rm_Deinit : R -> R;
  rm_RegisterDevice :
    DeviceType -> HWDeviceAttributes -> R -> DisplayError * Handle * R;
  rm_UnregisterDevice : Handle -> R -> R;
  rm_Start : Handle -> R -> R;
  rm_Acquire : Handle -> HWLayers -> R -> DisplayError * HWLayers * R;
  rm_Stop : Handle -> R -> R;
  rm_PostCommit : Handle -> HWLayers -> R -> R;
  rm_Purge : Handle -> R -> R
}.

Arguments rm_Init {R}.
Arguments rm_Deinit {R}.
Arguments rm_RegisterDevice {R}.
Arguments rm_UnregisterDevice {R}.
Arguments rm_Start {R}.
Arguments rm_Acquire {R}.
Arguments rm_Stop {R}.
Arguments rm_PostCommit {R}.
Arguments rm_Purge {R}.

(** Modelled from the spec: [StrategyInterface] is declared in a header that
    is not part of the sources; the spec gives
    [GetNextStrategy(constraints, layerStackInfo) -> plan | Exhausted].  The
    plan comes back through the [HWLayersInfo]; a result other than
    [kErrorNone] is exhaustion. *)
Record StrategyInterface (P : Type) : Type := mkStrategy {
  GetNextStrategy :
    StrategyConstraints -> HWLayersInfo -> P -> DisplayError * HWLayersInfo * P
}.

Arguments GetNextStrategy {P}.

(** The dynamic loader as [Init] sees it: the result of [dlopen], whether
    [dlsym] finds the entry symbol, and the entry function itself, which
    returns an error code and may store through its out-parameter
    (here: maps the old value of [strategy_intf_] to the new one). *)
Record Loader : Type := mkLoader {
  dlopen_result : option LibHandle;
  dlsym_found : bool;
  get_strategy_intf :
    option StrategyRef -> DisplayError * option StrategyRef
}.

(** ** Trace *)

Inductive Event : Type :=
| EvResInit (hw_res_info : HWResourceInfo)
| EvResDeinit
| EvResRegisterDevice (type : DeviceType)
| EvResUnregisterDevice (rm_device : Handle)
| EvResStart (rm_device : Handle)
| EvResAcquire (rm_device : Handle) (hw_layers : HWLayers)
| EvResStop (rm_device : Handle)
| EvResPostCommit (rm_device : Handle)
| EvResPurge (rm_device : Handle)
| EvGetNextStrategy (target : StrategyRef) (c : StrategyConstraints)
    (i : HWLayersInfo)
| EvDlopen
| EvDlsym
| EvGetStrategyInterface
| EvDlclose (lib : LibHandle)
| EvStoreRegistered (value : Z)
| EvStoreConfigured (value : Z)
| EvStoreSafeMode (value : bool).

Definition is_ResAcquire (e : Event) : bool :=
  match e with EvResAcquire _ _ => true | _ => false end.
Definition is_ResPostCommit (e : Event) : bool :=
  match e with EvResPostCommit _ => true | _ => false end.
Definition is_GetNextStrategy (e : Event) : bool :=
  match e with EvGetNextStrategy _ _ _ => true | _ => false end.
Definition is_StoreConfigured (e : Event) : bool :=
  match e with EvStoreConfigured _ => true | _ => false end.

Definition count_events (p : Event -> bool) (t : list Event) : nat :=
  length (List.filter p t).

(** Position of the first event satisfying [p]. *)
Fixpoint first_index (p : Event -> bool) (t : list Event) : option nat :=
  match t with
  | [] => None
  | e :: t' => if p e then Some 0%nat else S <$> first_index p t'
  end.

(** ** State and the computation monad *)

Section Manager.

Context {R P : Type}.
Variable res_mgr : ResManager R.
Variable strategy_default : StrategyInterface P.
Variable strategy_loaded : StrategyInterface P.

(** The members of [CompManager] ([locker_] apart), then the state of the
    object behind a loaded [strategy_intf_], the heap of devices, and the
    trace. *)
Record State : Type := mkState {
  strategy_lib_ : option LibHandle;
  strategy_intf_ : option StrategyRef;
  registered_displays_ : Z;
  configured_displays_ : Z;
  safe_mode_ : bool;
  res_mgr_ : R;
  strategy_default_ : P;
  loaded_strategy : P;
  heap : gmap Handle CompManagerDevice;
  trace : list Event
}.

(** [CompManager::CompManager()]. *)
Definition CompManager_new (r : R) (pd pl : P) : State :=
  mkState None None 0 0 false r pd pl ∅ [].

(** A call either returns, has undefined behaviour (a handle that is not a
    live device, a null [strategy_intf_]), or is still inside [while (true)]
    when the fuel is used up. *)
Inductive Result (A : Type) : Type :=
| Done (a : A) (s : State)
| Fault
| Spin (s : State).

Arguments Done {A}.
Arguments Fault {A}.
Arguments Spin {A}.

Definition M (A : Type) : Type := State -> Result A.

Definition ret {A} (a : A) : M A := fun s => Done a s.

Definition bind {A B} (m : M A) (k : A -> M B) : M B :=
  fun s =>
    match m s with
    | Done a s' => k a s'
    | Fault => Fault
    | Spin s' => Spin s'
    end.

Definition fault {A} : M A := fun _ => Fault.
Definition spin {A} : M A := fun s => Spin s.
Definition gets {A} (f : State -> A) : M A := fun s => Done (f s) s.
Definition modify (f : State -> State) : M unit := fun s => Done tt (f s).

Notation "'do' x <- m ; k" := (bind m (fun x => k))
  (at level 10, x name, m at level 99, k at level 200, only parsing).
Notation "m ;; k" := (bind m (fun _ => k))
  (at level 100, k at level 200, right associativity, only parsing).

(** Field stores. *)
Definition with_strategy_lib_ (v : option LibHandle) (s : State) : State :=
  mkState v (strategy_intf_ s) (registered_displays_ s)
    (configured_displays_ s) (safe_mode_ s) (res_mgr_ s)
    (strategy_default_ s) (loaded_strategy s) (heap s) (trace s).

Definition with_strategy_intf_ (v : option StrategyRef) (s : State) : State :=
  mkState (strategy_lib_ s) v (registered_displays_ s)
    (configured_displays_ s) (safe_mode_ s) (res_mgr_ s)
    (strategy_default_ s) (loaded_strategy s) (heap s) (trace s).

Definition with_registered_displays_ (v : Z) (s : State) : State :=
  mkState (strategy_lib_ s) (strategy_intf_ s) v
    (configured_displays_ s) (safe_mode_ s) (res_mgr_ s)
    (strategy_default_ s) (loaded_strategy s) (heap s) (trace s).

Definition with_configured_displays_ (v : Z) (s : State) : State :=
  mkState (strategy_lib_ s) (strategy_intf_ s) (registered_displays_ s)
    v (safe_mode_ s) (res_mgr_ s)
    (strategy_default_ s) (loaded_strategy s) (heap s) (trace s).

Definition with_safe_mode_ (v : bool) (s : State) : State :=
  mkState (strategy_lib_ s) (strategy_intf_ s) (registered_displays_ s)
    (configured_displays_ s) v (res_mgr_ s)
    (strategy_default_ s) (loaded_strategy s) (heap s) (trace s).

Definition with_res_mgr_ (v : R) (s : State) : State :=
  mkState (strategy_lib_ s) (strategy_intf_ s) (registered_displays_ s)
    (configured_displays_ s) (safe_mode_ s) v
    (strategy_default_ s) (loaded_strategy s) (heap s) (trace s).

Definition with_strategy_default_ (v : P) (s : State) : State :=
  mkState (strategy_lib_ s) (strategy_intf_ s) (registered_displays_ s)
    (configured_displays_ s) (safe_mode_ s) (res_mgr_ s)
    v (loaded_strategy s) (heap s) (trace s).

Definition with_loaded_strategy (v : P) (s : State) : State :=
  mkState (strategy_lib_ s) (strategy_intf_ s) (registered_displays_ s)
    (configured_displays_ s) (safe_mode_ s) (res_mgr_ s)
    (strategy_default_ s) v (heap s) (trace s).

Definition with_heap (v : gmap Handle CompManagerDevice) (s : State) : State :=
  mkState (strategy_lib_ s) (strategy_intf_ s) (registered_displays_ s)
    (configured_displays_ s) (safe_mode_ s) (res_mgr_ s)
    (strategy_default_ s) (loaded_strategy s) v (trace s).

Definition with_trace (v : list Event) (s : State) : State :=
  mkState (strategy_lib_ s) (strategy_intf_ s) (registered_displays_ s)
    (configured_displays_ s) (safe_mode_ s) (res_mgr_ s)
    (strategy_default_ s) (loaded_strategy s) (heap s) v.

Definition emit (e : Event) : M unit :=
  modify (fun s => with_trace (trace s ++ [e]) s).

(** Stores to the three shared fields are traced. *)
Definition store_registered (v : Z) : M unit :=
  emit (EvStoreRegistered v) ;; modify (with_registered_displays_ v).

Definition store_configured (v : Z) : M unit :=
  emit (EvStoreConfigured v) ;; modify (with_configured_displays_ v).

Definition store_safe_mode (v : bool) : M unit :=
  emit (EvStoreSafeMode v) ;; modify (with_safe_mode_ v).

(** The heap of devices behind the handles. *)
Definition new_device : M Handle :=
  fun s =>
    let h := fresh (dom (heap s)) in
    Done h (with_heap (<[h := new_CompManagerDevice]> (heap s)) s).

Definition delete_device (h : Handle) : M unit :=
  modify (fun s => with_heap (delete h (heap s)) s).

(** [reinterpret_cast<CompManagerDevice *>(device)] followed by a read. *)
Definition load_device (h : Handle) : M CompManagerDevice :=
  fun s =>
    match heap s !! h with
    | Some d => Done d s
    | None => Fault
    end.

Definition store_device (h : Handle) (d : CompManagerDevice) : M unit :=
  fun s =>
    match heap s !! h with
    | Some _ => Done tt (with_heap (<[h := d]> (heap s)) s)
    | None => Fault
    end.

(** Calls on [res_mgr_]. *)
Definition res_Init (hw_res_info : HWResourceInfo) : M DisplayError :=
  emit (EvResInit hw_res_info) ;;
  do r <- gets res_mgr_;
  let '(error, r') := rm_Init res_mgr hw_res_info r in
  modify (with_res_mgr_ r') ;; ret error.

Definition res_Deinit : M unit :=
  emit EvResDeinit ;;
  do r <- gets res_mgr_; modify (with_res_mgr_ (rm_Deinit res_mgr r)).

Definition res_RegisterDevice (type : DeviceType)
    (attributes : HWDeviceAttributes) : M (DisplayError * Handle) :=
  emit (EvResRegisterDevice type) ;;
  do r <- gets res_mgr_;
  let '(error, h, r') := rm_RegisterDevice res_mgr type attributes r in
  modify (with_res_mgr_ r') ;; ret (error, h).

Definition res_UnregisterDevice (h : Handle) : M unit :=
  emit (EvResUnregisterDevice h) ;;
  do r <- gets res_mgr_;
  modify (with_res_mgr_ (rm_UnregisterDevice res_mgr h r)).

Definition res_Start (h : Handle) : M unit :=
  emit (EvResStart h) ;;
  do r <- gets res_mgr_; modify (with_res_mgr_ (rm_Start res_mgr h r)).

Definition res_Acquire (h : Handle) (hw_layers : HWLayers)
    : M (DisplayError * HWLayers) :=
  emit (EvResAcquire h hw_layers) ;;
  do r <- gets res_mgr_;
  let '(error, hw_layers', r') := rm_Acquire res_mgr h hw_layers r in
  modify (with_res_mgr_ r') ;; ret (error, hw_layers').

Definition res_Stop (h : Handle) : M unit :=
  emit (EvResStop h) ;;
  do r <- gets res_mgr_; modify (with_res_mgr_ (rm_Stop res_mgr h r)).

Definition res_PostCommit (h : Handle) (hw_layers : HWLayers) : M unit :=
  emit (EvResPostCommit h) ;;
  do r <- gets res_mgr_;
  modify (with_res_mgr_ (rm_PostCommit res_mgr h hw_layers r)).

Definition res_Purge (h : Handle) : M unit :=
  emit (EvResPurge h) ;;
  do r <- gets res_mgr_; modify (with_res_mgr_ (rm_Purge res_mgr h r)).

(** [strategy_intf_->GetNextStrategy(...)]: a virtual call through the
    pointer; a null pointer is undefined behaviour. *)
Definition intf_GetNextStrategy (c : StrategyConstraints) (i : HWLayersInfo)
    : M (DisplayError * HWLayersInfo) :=
  do target <- gets strategy_intf_;
  match target with
  | None => fault
  | Some DefaultStrategy =>
      emit (EvGetNextStrategy DefaultStrategy c i) ;;
      do p <- gets strategy_default_;
      let '(error, i', p') := GetNextStrategy strategy_default c i p in
      modify (with_strategy_default_ p') ;; ret (error, i')
  | Some LoadedStrategy =>
      emit (EvGetNextStrategy LoadedStrategy c i) ;;
      do p <- gets loaded_strategy;
      let '(error, i', p') := GetNextStrategy strategy_loaded c i p in
      modify (with_loaded_strategy p') ;; ret (error, i')
  end.

(** ** The member functions of [CompManager] *)

(** [CompManager::Init]. *)
Definition Init (hw_res_info : HWResourceInfo) (ld : Loader) : M DisplayError :=
  do error <- res_Init hw_res_info;
  if is_error error then ret error
  else
    emit EvDlopen ;;
    modify (with_strategy_lib_ (dlopen_result ld)) ;;
    match dlopen_result ld with
    | None => ret tt
    | Some _ =>
        emit EvDlsym ;;
        if negb (dlsym_found ld) then ret tt
        else
          emit EvGetStrategyInterface ;;
          do old <- gets strategy_intf_;
          modify (with_strategy_intf_ (snd (get_strategy_intf ld old)))
    end ;;
    do intf <- gets strategy_intf_;
    match intf with
    | Some _ => ret tt
    | None =>
        do lib <- gets strategy_lib_;
        match lib with
        | Some l => emit (EvDlclose l) ;; modify (with_strategy_lib_ None)
        | None => ret tt
        end ;;
        modify (with_strategy_intf_ (Some DefaultStrategy))
    end ;;
    ret kErrorNone.

(** [CompManager::Deinit]. *)
Definition Deinit : M DisplayError :=
  do lib <- gets strategy_lib_;
  match lib with
  | Some l => emit (EvDlclose l)
  | None => ret tt
  end ;;
  res_Deinit ;;
  ret kErrorNone.

(** [CompManager::RegisterDevice].  [new_ok] tells whether
    [new CompManagerDevice()] yields an object (a null result, tested at
    line 97, needs a [new] that does not throw); the handle stored through
    [*device] is the second component of the result. *)
Definition RegisterDevice (type : DeviceType) (attributes : HWDeviceAttributes)
    (new_ok : bool) : M (DisplayError * option Handle) :=
  if negb new_ok then ret (kErrorMemory, None)
  else
    do comp_mgr_device <- new_device;
    do r <- res_RegisterDevice type attributes;
    do d <- load_device comp_mgr_device;
    store_device comp_mgr_device
      (mkDevice (constraints d) (snd r) (device_type d)) ;;
    if is_error (fst r) then
      delete_device comp_mgr_device ;;
      ret (fst r, None)
    else
      do registered <- gets registered_displays_;
      store_registered (SET_BIT registered type) ;;
      do d <- load_device comp_mgr_device;
      store_device comp_mgr_device
        (mkDevice (constraints d) (res_mgr_device d) type) ;;
      store_safe_mode true ;;
      ret (kErrorNone, Some comp_mgr_device).

(** [CompManager::UnregisterDevice]. *)
Definition UnregisterDevice (device : Handle) : M DisplayError :=
  do d <- load_device device;
  res_UnregisterDevice (res_mgr_device d) ;;
  do d <- load_device device;
  do registered <- gets registered_displays_;
  store_registered (CLEAR_BIT registered (device_type d)) ;;
  do d <- load_device device;
  do configured <- gets configured_displays_;
  store_configured (CLEAR_BIT configured (device_type d)) ;;
  delete_device device ;;
  ret kErrorNone.

(** [CompManager::PrepareStrategyConstraints]. *)
Definition PrepareStrategyConstraints (device : Handle) (hw_layers : HWLayers)
    : M unit :=
  do d <- load_device device;
  do safe <- gets safe_mode_;
  store_device device
    (mkDevice (mkConstraints safe) (res_mgr_device d) (device_type d)) ;;
  if negb (flags (info hw_layers) =? 0)%Z then
    do d <- load_device device;
    store_device device
      (mkDevice (mkConstraints true) (res_mgr_device d) (device_type d))
  else ret tt.

(** How the [while (true)] of [Prepare] is left. *)
Inductive LoopExit : Type :=
| LoopReturn (error : DisplayError)
| LoopBreak.

(** The body of [while (true)] in [Prepare], [fuel] iterations at most. *)
Fixpoint Prepare_loop (fuel : nat) (device : Handle) (hw_layers : HWLayers)
    : M (LoopExit * HWLayers) :=
  match fuel with
  | O => spin
  | S fuel' =>
      do d <- load_device device;
      do r <- intf_GetNextStrategy (constraints d) (info hw_layers);
      let hw_layers1 := set_info hw_layers (snd r) in
      if is_error (fst r) then ret (LoopReturn (fst r), hw_layers1)
      else
        do d <- load_device device;
        do a <- res_Acquire (res_mgr_device d) hw_layers1;
        if is_error (fst a) then Prepare_loop fuel' device (snd a)
        else ret (LoopBreak, snd a)
  end.

(** [CompManager::Prepare]; the layers come back as left by the last
    strategy and [Acquire] calls. *)
Definition Prepare (fuel : nat) (device : Handle) (hw_layers : HWLayers)
    : M (DisplayError * HWLayers) :=
  PrepareStrategyConstraints device hw_layers ;;
  do d <- load_device device;
  res_Start (res_mgr_device d) ;;
  do x <- Prepare_loop fuel device hw_layers;
  match fst x with
  | LoopReturn error => ret (error, snd x)
  | LoopBreak =>
      do d <- load_device device;
      res_Stop (res_mgr_device d) ;;
      ret (kErrorNone, snd x)
  end.

(** [CompManager::PostPrepare]. *)
Definition PostPrepare (device : Handle) (hw_layers : HWLayers) : M unit :=
  ret tt.

(** [CompManager::PostCommit]. *)
Definition PostCommit (device : Handle) (hw_layers : HWLayers) : M unit :=
  do d <- load_device device;
  do configured <- gets configured_displays_;
  store_configured (SET_BIT configured (device_type d)) ;;
  do configured <- gets configured_displays_;
  do registered <- gets registered_displays_;
  (if (configured =? registered)%Z then store_safe_mode false else ret tt) ;;
  do d <- load_device device;
  res_PostCommit (res_mgr_device d) hw_layers.

(** [CompManager::Purge]. *)
Definition Purge (device : Handle) : M unit :=
  do d <- load_device device;
  res_Purge (res_mgr_device d).

(** [CompManager::AppendDump]. *)
Definition AppendDump (length : nat) : M unit :=
  ret tt.

(** ** Sequences of calls *)

Inductive Call : Type :=
| CallRegisterDevice (type : DeviceType) (attributes : HWDeviceAttributes)
    (new_ok : bool)
| CallUnregisterDevice (device : Handle)
| CallPostCommit (device : Handle) (hw_layers : HWLayers).

Definition call (c : Call) : M unit :=
  match c with
  | CallRegisterDevice type attributes new_ok =>
      RegisterDevice type attributes new_ok ;; ret tt
  | CallUnregisterDevice device => UnregisterDevice device ;; ret tt
  | CallPostCommit device hw_layers => PostCommit device hw_layers
  end.

(** The handle of an [UnregisterDevice] or [PostCommit] is a live device
    whose type is in [registered_displays_]. *)
Definition targets_registered (c : Call) (s : State) : bool :=
  match c with
  | CallRegisterDevice _ _ _ => true
  | CallUnregisterDevice device | CallPostCommit device _ =>
      match heap s !! device with
      | Some d => has_type (registered_displays_ s) (device_type d)
      | None => false
      end
  end.

(** A sequence in which every call meets [targets_registered] when it is
    made; [None] when one does not, or when a call does not return. *)
Fixpoint calls_on_registered (cs : list Call) (s : State) : option State :=
  match cs with
  | [] => Some s
  | c :: cs' =>
      if targets_registered c s then
        match call c s with
        | Done _ s' => calls_on_registered cs' s'
        | _ => None
        end
      else None
  end.

(** The state a call ends in, returned or still looping. *)
Definition final_state {A} (r : Result A) : option State :=
  match r with
  | Done _ s => Some s
  | Spin s => Some s
  | Fault => None
  end.

(** The events a computation adds when started in [s]. *)
Definition events_of {A} (m : M A) (s : State) : list Event :=
  match final_state (m (with_trace [] s)) with
  | Some s' => trace s'
  | None => []
  end.

(** ** End states of the straight-line functions *)

(** The address [new] hands out. *)
Definition new_handle (s : State) : Handle := fresh (dom (heap s)).

(** The state [RegisterDevice] ends in when the resource manager accepts. *)
Definition RegisterDevice_state (type : DeviceType) (rm_device : Handle)
    (r' : R) (s : State) : State :=
  let registered := SET_BIT (registered_displays_ s) type in
  mkState (strategy_lib_ s) (strategy_intf_ s) registered
    (configured_displays_ s) true r'
    (strategy_default_ s) (loaded_strategy s)
    (<[new_handle s := mkDevice (mkConstraints false) rm_device type]> (heap s))
    (trace s ++ [EvResRegisterDevice type; EvStoreRegistered registered;
                 EvStoreSafeMode true]).

(** The state [RegisterDevice] ends in when the resource manager refuses. *)
Definition RegisterDevice_refused (type : DeviceType) (r' : R) (s : State)
    : State :=
  mkState (strategy_lib_ s) (strategy_intf_ s) (registered_displays_ s)
    (configured_displays_ s) (safe_mode_ s) r'
    (strategy_default_ s) (loaded_strategy s) (heap s)
    (trace s ++ [EvResRegisterDevice type]).

(** The state [UnregisterDevice] ends in. *)
Definition UnregisterDevice_state (device : Handle) (d : CompManagerDevice)
    (s : State) : State :=
  let registered := CLEAR_BIT (registered_displays_ s) (device_type d) in
  let configured := CLEAR_BIT (configured_displays_ s) (device_type d) in
  mkState (strategy_lib_ s) (strategy_intf_ s) registered configured
    (safe_mode_ s)
    (rm_UnregisterDevice res_mgr (res_mgr_device d) (res_mgr_ s))
    (strategy_default_ s) (loaded_strategy s) (delete device (heap s))
    (trace s ++ [EvResUnregisterDevice (res_mgr_device d);
                 EvStoreRegistered registered; EvStoreConfigured configured]).

(** The state [PostCommit] ends in. *)
Definition PostCommit_state (d : CompManagerDevice) (hw_layers : HWLayers)
    (s : State) : State :=
  let configured := SET_BIT (configured_displays_ s) (device_type d) in
  let normal := (configured =? registered_displays_ s)%Z in
  mkState (strategy_lib_ s) (strategy_intf_ s) (registered_displays_ s)
    configured (if normal then false else safe_mode_ s)
    (rm_PostCommit res_mgr (res_mgr_device d) hw_layers (res_mgr_ s))
    (strategy_default_ s) (loaded_strategy s) (heap s)
    (trace s ++ [EvStoreConfigured configured]
       ++ (if normal then [EvStoreSafeMode false] else [])
       ++ [EvResPostCommit (res_mgr_device d)]).

(** The state [PrepareStrategyConstraints] ends in. *)
Definition PrepareStrategyConstraints_state (device : Handle)
    (d : CompManagerDevice) (hw_layers : HWLayers) (s : State) : State :=
  let safe := safe_mode_ s || negb (flags (info hw_layers) =? 0)%Z in
  with_heap
    (<[device := mkDevice (mkConstraints safe) (res_mgr_device d)
                   (device_type d)]> (heap s)) s.

(** What a call leaves alone: the heap and the manager's own fields. *)
Definition same_manager (s s' : State) : Prop :=
  heap s' = heap s /\
  strategy_lib_ s' = strategy_lib_ s /\
  strategy_intf_ s' = strategy_intf_ s /\
  registered_displays_ s' = registered_displays_ s /\
  configured_displays_ s' = configured_displays_ s /\
  safe_mode_ s' = safe_mode_ s.

(** ** Reading traces *)

(** Whether a resource session is open at the end of a trace that starts
    with the session in state [open]: [Start] opens it, [Stop] closes it. *)
Fixpoint session_open (open : bool) (t : list Event) : bool :=
  match t with
  | [] => open
  | EvResStart _ :: t' => session_open true t'
  | EvResStop _ :: t' => session_open false t'
  | _ :: t' => session_open open t'
  end.

(** The resource manager's [PostCommit] comes before the store to
    [configured_displays_]. *)
Definition arbiter_notified_first (t : list Event) : Prop :=
  exists i j,
    first_index is_ResPostCommit t = Some i /\
    first_index is_StoreConfigured t = Some j /\
    (i < j)%nat.

(** The events of the [while (true)] of [Prepare] for a device whose
    constraints are [c]: strategy calls with [c], and [Acquire] calls. *)
Definition loop_event (c : StrategyConstraints) (e : Event) : bool :=
  match e with
  | EvGetNextStrategy _ c' _ => Bool.eqb (safe_mode c') (safe_mode c)
  | EvResAcquire _ _ => true
  | _ => false
  end.

(** The strategy was handed constraints with [safe_mode] set. *)
Definition provider_saw_safe (e : Event) : bool :=
  match e with
  | EvGetNextStrategy _ c _ => safe_mode c
  | _ => true
  end.

(** ** Outcomes of the library load in [Init] *)

(** Loading failed as the source reports it: [dlopen] gave null, [dlsym]
    gave null, or the entry function returned an error. *)
Definition load_failed (ld : Loader) (old : option StrategyRef) : Prop :=
  dlopen_result ld = None \/
  dlsym_found ld = false \/
  fst (get_strategy_intf ld old) <> kErrorNone.

(** The load attempt of [Init] leaves [strategy_intf_] null: it was null
    and [dlopen] or [dlsym] gave null, or the entry function was called and
    left null in it. *)
Definition no_instance (ld : Loader) (old : option StrategyRef) : Prop :=
  match dlopen_result ld with
  | None => old = None
  | Some _ =>
      if dlsym_found ld then snd (get_strategy_intf ld old) = None
      else old = None
  end.

End Manager.

Arguments Done {R P A}.
Arguments Fault {R P A}.
Arguments Spin {R P A}.

(** ** Test doubles for the collaborators *)

(** A resource manager without state: [Init] and [RegisterDevice] answer
    with fixed codes, [Acquire] accepts exactly the compositions [accept]
    allows and leaves the layers alone. *)
Definition stub_res_mgr (init_error register_error : DisplayError)
    (accept : nat -> bool) : ResManager unit :=
  {| rm_Init := fun _ r => (init_error, r);
     rm_Deinit := fun r => r;
     rm_RegisterDevice := fun type _ r => (register_error, 40%nat, r);
     rm_UnregisterDevice := fun _ r => r;
     rm_Start := fun _ r => r;
     rm_Acquire := fun _ hw_layers r =>
       (if accept (composition (info hw_layers)) then kErrorNone
        else kErrorCode 9, hw_layers, r);
     rm_Stop := fun _ r => r;
     rm_PostCommit := fun _ _ r => r;
     rm_Purge := fun _ r => r |}.

(** A strategy that offers the compositions of a list in order, one per
    call, and reports exhaustion when the list is empty. *)
Definition list_strategy : StrategyInterface (list nat) :=
  {| GetNextStrategy := fun _ i p =>
       match p with
       | [] => (kErrorCode 1, i, [])
       | x :: p' => (kErrorNone, mkInfo (flags i) x, p')
       end |}.

Definition accept_all (composition : nat) : bool := true.

(** A freshly constructed manager over the test doubles, the loaded strategy
    holding [candidates]. *)
Definition stub_new (candidates : list nat) : @State unit (list nat) :=
  CompManager_new tt [0%nat] candidates.

Definition stub_layers (f : Z) : HWLayers := mkLayers (mkInfo f 0%nat) 0%nat.

(** The resource manager that accepts everything. *)
Definition stub_ok : ResManager unit :=
  stub_res_mgr kErrorNone kErrorNone accept_all.

(** A loader whose library hands out its strategy object. *)
Definition loader_ok : Loader :=
  mkLoader (Some 7%nat) true (fun _ => (kErrorNone, Some LoadedStrategy)).

(** A loader whose entry function stores its strategy object and then
    reports an error. *)
Definition loader_entry_error : Loader :=
  mkLoader (Some 7%nat) true (fun _ => (kErrorCode 3, Some LoadedStrategy)).

(** A loader that opens the library and does not find the entry symbol. *)
Definition loader_no_symbol : Loader :=
  mkLoader (Some 7%nat) false (fun old => (kErrorCode 3, old)).

(** The state a computation ends in ([s] itself after undefined
    behaviour). *)
Definition state_after {R P A} (m : @M R P A) (s : @State R P) : @State R P :=
  match final_state (m s) with
  | Some s' => s'
  | None => s
  end.

(** A manager after [Init] with the library loaded and [RegisterDevice] for
    the primary display; the device's handle is [0]. *)
Definition stub_ready (candidates : list nat) : @State unit (list nat) :=
  state_after (RegisterDevice stub_ok kPrimary 0%nat true)
    (state_after (Init stub_ok 0%nat loader_ok) (stub_new candidates)).

(** Register the primary display, commit it, register and commit the
    external one, then unregister the primary one. *)
Definition stub_calls : list Call :=
  [CallRegisterDevice kPrimary 0%nat true;
   CallPostCommit 0%nat (stub_layers 0);
   CallRegisterDevice kHDMI 0%nat true;
   CallPostCommit 1%nat (stub_layers 0);
   CallUnregisterDevice 0%nat].

(** [stub_ready] after a [PostCommit] for the primary display: every
    registered display is configured and [safe_mode_] is [false]. *)
Definition stub_committed (candidates : list nat) : @State unit (list nat) :=
  state_after (PostCommit stub_ok 0%nat (stub_layers 0))
    (stub_ready candidates).

(** The resource manager that accepts the compositions from [n] on. *)
Definition accept_from (n composition : nat) : bool := (n <=? composition)%nat.

Definition stub_from (n : nat) : ResManager unit :=
  stub_res_mgr kErrorNone kErrorNone (accept_from n).

(** ** Further test doubles *)

(** A resource manager whose [Init] fails. *)
Definition stub_no_init : ResManager unit :=
  stub_res_mgr (kErrorCode 4) kErrorNone accept_all.

(** A resource manager whose [Acquire] refuses everything. *)
Definition stub_refusing : ResManager unit :=
  stub_res_mgr kErrorNone kErrorNone (fun _ => false).

(** A strategy that offers composition [0] on every call. *)
Definition endless_strategy : StrategyInterface (list nat) :=
  {| GetNextStrategy := fun _ i p => (kErrorNone, mkInfo (flags i) 0%nat, p) |}.

(** [stub_ready] with a second device for the primary display (handle
    [1]). *)
Definition stub_twins : @State unit (list nat) :=
  state_after (RegisterDevice stub_ok kPrimary 0%nat true) (stub_ready []).

(** [stub_twins] after the first of the two devices is unregistered. *)
Definition stub_orphan : @State unit (list nat) :=
  state_after (UnregisterDevice stub_ok 0%nat) stub_twins.

(** [stub_committed] after the external display is registered (handle
    [1]). *)
Definition stub_second : @State unit (list nat) :=
  state_after (RegisterDevice stub_ok kHDMI 0%nat true) (stub_committed []).

(** A loader whose entry function reports an error and stores nothing. *)
Definition loader_entry_fails : Loader :=
  mkLoader (Some 7%nat) true (fun old => (kErrorCode 3, old)).

(** ** Further readings of states and traces *)

Definition is_Dlclose (e : Event) : bool :=
  match e with EvDlclose _ => true | _ => false end.

(** The value [strategy_intf_] has in [Init] when the load attempt is over:
    the entry function is the only one to store to it. *)
Definition pointer_after_load (ld : Loader) (old : option StrategyRef)
    : option StrategyRef :=
  match dlopen_result ld with
  | None => old
  | Some _ => if dlsym_found ld then snd (get_strategy_intf ld old) else old
  end.

(** The strategy was handed constraints whose [safe_mode] is [b]. *)
Definition provider_saw (b : bool) (e : Event) : bool :=
  match e with
  | EvGetNextStrategy _ c _ => Bool.eqb (safe_mode c) b
  | _ => true
  end.

(** The state in which [Prepare] enters its loop: constraints stored,
    [Start] called. *)
Definition Prepare_started {R P} (res_mgr : ResManager R) (device : Handle)
    (d : CompManagerDevice) (hw_layers : HWLayers) (s : @State R P)
    : @State R P :=
  let s0 := PrepareStrategyConstraints_state device d hw_layers s in
  with_res_mgr_ (rm_Start res_mgr (res_mgr_device d) (res_mgr_ s0))
    (with_trace (trace s0 ++ [EvResStart (res_mgr_device d)]) s0).

(** The state after the [Stop] that follows the loop. *)
Definition Prepare_stopped {R P} (res_mgr : ResManager R)
    (d : CompManagerDevice) (s : @State R P) : @State R P :=
  with_res_mgr_ (rm_Stop res_mgr (res_mgr_device d) (res_mgr_ s))
    (with_trace (trace s ++ [EvResStop (res_mgr_device d)]) s).

(** [e] is a value some call of the strategy's [GetNextStrategy] returns. *)
Definition strategy_reports {P} (strategy : StrategyInterface P)
    (e : DisplayError) : Prop :=
  exists c i p, e = fst (fst (GetNextStrategy strategy c i p)).

(** A strategy that always has a next candidate. *)
Definition never_exhausted {P} (strategy : StrategyInterface P) : Prop :=
  forall c i p, fst (fst (GetNextStrategy strategy c i p)) = kErrorNone.

(** A resource manager whose [Acquire] refuses every request. *)
Definition always_refuses {R} (res_mgr : ResManager R) : Prop :=
  forall h hw_layers r,
    fst (fst (rm_Acquire res_mgr h hw_layers r)) <> kErrorNone.

(** ** One cycle of the strategy against the resource manager *)

(** The object [strategy_intf_] selects, and its state. *)
Definition strategy_of {P} (strategy_default strategy_loaded : StrategyInterface P)
    (target : StrategyRef) : StrategyInterface P :=
  match target with
  | DefaultStrategy => strategy_default
  | LoadedStrategy => strategy_loaded
  end.

Definition strategy_state {R P} (target : StrategyRef) (s : @State R P) : P :=
  match target with
  | DefaultStrategy => strategy_default_ s
  | LoadedStrategy => loaded_strategy s
  end.

(** [offers_until_accepted res_mgr strategy c h n p r hw cand p' r' hw']:
    asked [n] times in a row with constraints [c], starting in state [p]
    and with the layers [hw], the strategy offers a candidate each time;
    the resource manager, starting in state [r], refuses the first [n - 1]
    of them on handle [h] (with any error) and accepts the last one,
    [cand].  Each request sees the layers the previous [Acquire] left;
    [p'], [r'] and [hw'] are the two states and the layers after the
    accepting [Acquire]. *)
Inductive offers_until_accepted {R P} (res_mgr : ResManager R)
    (strategy : StrategyInterface P) (c : StrategyConstraints) (h : Handle)
    : nat -> P -> R -> HWLayers -> HWLayersInfo -> P -> R -> HWLayers -> Prop :=
| offer_accepted (p : P) (r : R) (hw : HWLayers) (cand : HWLayersInfo)
    (p' : P) (r' : R) (hw' : HWLayers) :
    GetNextStrategy strategy c (info hw) p = (kErrorNone, cand, p') ->
    rm_Acquire res_mgr h (set_info hw cand) r = (kErrorNone, hw', r') ->
    offers_until_accepted res_mgr strategy c h 1 p r hw cand p' r' hw'
| offer_refused (n : nat) (p : P) (r : R) (hw : HWLayers)
    (refused : HWLayersInfo) (p1 : P) (e : DisplayError) (hw1 : HWLayers)
    (r1 : R) (cand : HWLayersInfo) (p' : P) (r' : R) (hw' : HWLayers) :
    GetNextStrategy strategy c (info hw) p = (kErrorNone, refused, p1) ->
    rm_Acquire res_mgr h (set_info hw refused) r = (e, hw1, r1) ->
    e <> kErrorNone ->
    offers_until_accepted res_mgr strategy c h n p1 r1 hw1 cand p' r' hw' ->
    offers_until_accepted res_mgr strategy c h (S n) p r hw cand p' r' hw'.

(** An entry function that leaves its out-parameter alone when it reports
    an error. *)
Definition stores_nothing_on_failure (ld : Loader) : Prop :=
  forall old,
    fst (get_strategy_intf ld old) <> kErrorNone ->
    snd (get_strategy_intf ld old) = old.

(** ** Bit-set facts *)

Lemma type_index_nonneg (type : DeviceType) : (0 <= type_index type)%Z.
Proof. destruct type; simpl; lia. Qed.

Lemma type_index_inj (a b : DeviceType) : type_index a = type_index b -> a = b.
Proof. destruct a, b; simpl; intros H; congruence || lia. Qed.

Lemma testbit_bit (type : DeviceType) (i : Z) :
  Z.testbit (Z.shiftl 1 (type_index type)) i = (type_index type =? i)%Z.
Proof.
  pose proof (type_index_nonneg type) as Hn.
  rewrite Z.shiftl_1_l.
  destruct (Z.eqb_spec (type_index type) i) as [Heq|Hne].
  - rewrite <- Heq. apply Z.pow2_bits_true. exact Hn.
  - apply Z.pow2_bits_false. exact Hne.
Qed.

Lemma testbit_SET_BIT (value : Z) (type : DeviceType) (i : Z) :
  Z.testbit (SET_BIT value type) i
  = Z.testbit value i || (type_index type =? i)%Z.
Proof. unfold SET_BIT. now rewrite Z.lor_spec, testbit_bit. Qed.

Lemma testbit_CLEAR_BIT (value : Z) (type : DeviceType) (i : Z) :
  Z.testbit (CLEAR_BIT value type) i
  = Z.testbit value i && negb (type_index type =? i)%Z.
Proof.
  unfold CLEAR_BIT. rewrite Z.land_spec.
  destruct (Z.ltb_spec i 0) as [Hneg|Hpos].
  - rewrite (Z.testbit_neg_r value) by assumption. reflexivity.
  - rewrite Z.lnot_spec by assumption. now rewrite testbit_bit.
Qed.

Lemma has_type_SET_BIT (value : Z) (type : DeviceType) :
  has_type (SET_BIT value type) type = true.
Proof.
  unfold has_type. rewrite testbit_SET_BIT, Z.eqb_refl. apply orb_true_r.
Qed.

Lemma SET_BIT_idem (value : Z) (type : DeviceType) :
  SET_BIT (SET_BIT value type) type = SET_BIT value type.
Proof.
  apply Z.bits_inj'. intros i _. rewrite !testbit_SET_BIT.
  destruct (Z.testbit value i), (type_index type =? i)%Z; reflexivity.
Qed.

(** A 32-bit field holding a bit-set of display types never wraps: reducing
    the result of either macro modulo [2 ^ 32] changes nothing. *)
Lemma testbit_high (value i : Z) :
  (0 <= value < 2 ^ 32)%Z -> (32 <= i)%Z -> Z.testbit value i = false.
Proof.
  intros Hv Hi. rewrite <- (Z.mod_small value (2 ^ 32)) by exact Hv.
  apply Z.mod_pow2_bits_high. lia.
Qed.

Lemma type_index_small (type : DeviceType) : (type_index type < 32)%Z.
Proof. destruct type; simpl; lia. Qed.

Lemma SET_BIT_no_wrap (value : Z) (type : DeviceType) :
  (0 <= value < 2 ^ 32)%Z ->
  (SET_BIT value type mod 2 ^ 32)%Z = SET_BIT value type.
Proof.
  intros Hv. rewrite <- Z.land_ones by lia.
  apply Z.bits_inj'. intros i Hi.
  rewrite Z.land_spec, testbit_SET_BIT, Z.testbit_ones_nonneg by lia.
  destruct (Z.ltb_spec i 32) as [Hlt|Hge].
  - apply andb_true_r.
  - rewrite (testbit_high value i Hv Hge).
    pose proof (type_index_small type).
    destruct (Z.eqb_spec (type_index type) i); [lia | reflexivity].
Qed.

Lemma CLEAR_BIT_no_wrap (value : Z) (type : DeviceType) :
  (0 <= value < 2 ^ 32)%Z ->
  (CLEAR_BIT value type mod 2 ^ 32)%Z = CLEAR_BIT value type.
Proof.
  intros Hv. rewrite <- Z.land_ones by lia.
  apply Z.bits_inj'. intros i Hi.
  rewrite Z.land_spec, testbit_CLEAR_BIT, Z.testbit_ones_nonneg by lia.
  destruct (Z.ltb_spec i 32) as [Hlt|Hge].
  - apply andb_true_r.
  - rewrite (testbit_high value i Hv Hge). reflexivity.
Qed.

(** ** Properties of the member functions *)

(** Unfolds the state-passing combinators and the field accessors. *)
Ltac run_m :=
  cbv [bind ret gets modify emit fault spin
       store_registered store_configured store_safe_mode
       res_Init res_Deinit res_RegisterDevice res_UnregisterDevice res_Start
       res_Acquire res_Stop res_PostCommit res_Purge
       load_device store_device delete_device new_device
       intf_GetNextStrategy];
  cbn [strategy_lib_ strategy_intf_ registered_displays_ configured_displays_
       safe_mode_ res_mgr_ strategy_default_ loaded_strategy heap trace
       with_strategy_lib_ with_strategy_intf_ with_registered_displays_
       with_configured_displays_ with_safe_mode_ with_res_mgr_
       with_strategy_default_ with_loaded_strategy with_heap with_trace
       fst snd negb is_error].

Section Properties.

Context {R P : Type}.
Variable res_mgr : ResManager R.
Variable strategy_default : StrategyInterface P.
Variable strategy_loaded : StrategyInterface P.

Abbreviation State := (@State R P).



Lemma PostCommit_run (device : Handle) (hw_layers : HWLayers) (s : State)
    (d : CompManagerDevice) :
  heap s !! device = Some d ->
  PostCommit res_mgr device hw_layers s
  = Done tt (PostCommit_state res_mgr d hw_layers s).
Proof.
  intros Hd. unfold PostCommit, PostCommit_state. run_m. rewrite Hd. run_m.
  destruct (SET_BIT (configured_displays_ s) (device_type d)
            =? registered_displays_ s)%Z;
    run_m; rewrite Hd; run_m; rewrite <- !app_assoc; reflexivity.
Qed.

Lemma PostCommit_fault (device : Handle) (hw_layers : HWLayers) (s : State) :
  heap s !! device = None ->
  PostCommit res_mgr device hw_layers s = Fault.
Proof. intros Hd. unfold PostCommit. run_m. now rewrite Hd. Qed.

Lemma new_handle_fresh (s : State) : heap s !! new_handle s = None.
Proof. apply not_elem_of_dom. exact (is_fresh (dom (heap s))). Qed.

Lemma RegisterDevice_run (type : DeviceType) (attributes : HWDeviceAttributes)
    (s : State) :
  RegisterDevice res_mgr type attributes true s
  = let '(error, rm_device, r') :=
        rm_RegisterDevice res_mgr type attributes (res_mgr_ s) in
    if is_error error
    then Done (error, None) (RegisterDevice_refused type r' s)
    else Done (kErrorNone, Some (new_handle s))
           (RegisterDevice_state type rm_device r' s).
Proof.
  unfold RegisterDevice, RegisterDevice_refused, RegisterDevice_state. run_m.
  fold (new_handle s).
  destruct (rm_RegisterDevice res_mgr type attributes (res_mgr_ s))
    as [[error rm_device] r'].
  run_m. rewrite lookup_insert_eq. run_m. rewrite lookup_insert_eq. run_m.
  rewrite insert_insert_eq.
  destruct (is_error error); run_m.
  - rewrite delete_insert_eq, (delete_id _ _ (new_handle_fresh s)).
    reflexivity.
  - rewrite lookup_insert_eq. run_m. rewrite lookup_insert_eq. run_m.
    rewrite insert_insert_eq, <- !app_assoc. reflexivity.
Qed.

Lemma RegisterDevice_no_memory (type : DeviceType)
    (attributes : HWDeviceAttributes) (s : State) :
  RegisterDevice res_mgr type attributes false s = Done (kErrorMemory, None) s.
Proof. reflexivity. Qed.

Lemma UnregisterDevice_run (device : Handle) (s : State)
    (d : CompManagerDevice) :
  heap s !! device = Some d ->
  UnregisterDevice res_mgr device s
  = Done kErrorNone (UnregisterDevice_state res_mgr device d s).
Proof.
  intros Hd. unfold UnregisterDevice, UnregisterDevice_state. run_m.
  rewrite Hd. run_m. rewrite Hd. run_m. rewrite Hd. run_m.
  rewrite <- !app_assoc. reflexivity.
Qed.

Lemma UnregisterDevice_fault (device : Handle) (s : State) :
  heap s !! device = None -> UnregisterDevice res_mgr device s = Fault.
Proof. intros Hd. unfold UnregisterDevice. run_m. now rewrite Hd. Qed.

(** *** Inclusion of bit-sets *)

Lemma subset_bits_spec (a b : Z) :
  subset_bits a b <->
  (forall i, Z.testbit a i = true -> Z.testbit b i = true).
Proof.
  unfold subset_bits. split.
  - intros H i Ha. rewrite <- H, Z.land_spec in Ha.
    now apply andb_true_iff in Ha.
  - intros H. apply Z.bits_inj'. intros i _. rewrite Z.land_spec.
    destruct (Z.testbit a i) eqn:Ha; [|reflexivity].
    now rewrite (H i Ha).
Qed.

Lemma subset_bits_has_type (a b : Z) (type : DeviceType) :
  subset_bits a b -> has_type a type = true -> has_type b type = true.
Proof. intros H. apply (proj1 (subset_bits_spec a b) H). Qed.

Lemma subset_bits_register (c r : Z) (type : DeviceType) :
  subset_bits c r -> subset_bits c (SET_BIT r type).
Proof.
  rewrite !subset_bits_spec. intros H i Hc.
  rewrite testbit_SET_BIT, (H i Hc). reflexivity.
Qed.

Lemma subset_bits_unregister (c r : Z) (type : DeviceType) :
  subset_bits c r -> subset_bits (CLEAR_BIT c type) (CLEAR_BIT r type).
Proof.
  rewrite !subset_bits_spec. intros H i. rewrite !testbit_CLEAR_BIT.
  intros Hc. apply andb_true_iff in Hc as [Hc Hn].
  now rewrite (H i Hc), Hn.
Qed.

Lemma subset_bits_commit (c r : Z) (type : DeviceType) :
  has_type r type = true -> subset_bits c r -> subset_bits (SET_BIT c type) r.
Proof.
  unfold has_type. rewrite !subset_bits_spec. intros Hr H i.
  rewrite testbit_SET_BIT. intros Hc.
  apply orb_true_iff in Hc as [Hc|Hc]; [now apply H|].
  apply Z.eqb_eq in Hc. now rewrite <- Hc.
Qed.

(** *** What one call does to the shared fields *)

Lemma call_RegisterDevice_cases (type : DeviceType)
    (attributes : HWDeviceAttributes) (new_ok : bool) (s s' : State) :
  call res_mgr (CallRegisterDevice type attributes new_ok) s = Done tt s' ->
  (configured_displays_ s' = configured_displays_ s) /\
  ((registered_displays_ s' = registered_displays_ s
    /\ safe_mode_ s' = safe_mode_ s)
   \/ (registered_displays_ s' = SET_BIT (registered_displays_ s) type
       /\ safe_mode_ s' = true)).
Proof.
  unfold call, bind. destruct new_ok.
  - rewrite RegisterDevice_run.
    destruct (rm_RegisterDevice res_mgr type attributes (res_mgr_ s))
      as [[error rm_device] r'].
    destruct (is_error error); intros [= <-]; simpl; auto.
  - rewrite RegisterDevice_no_memory. intros [= <-]. auto.
Qed.

Lemma call_UnregisterDevice_cases (device : Handle) (s s' : State) :
  call res_mgr (CallUnregisterDevice device) s = Done tt s' ->
  exists d, heap s !! device = Some d /\
    registered_displays_ s'
      = CLEAR_BIT (registered_displays_ s) (device_type d) /\
    configured_displays_ s'
      = CLEAR_BIT (configured_displays_ s) (device_type d) /\
    safe_mode_ s' = safe_mode_ s.
Proof.
  unfold call, bind. destruct (heap s !! device) as [d|] eqn:Hd.
  - rewrite (UnregisterDevice_run _ _ _ Hd). intros [= <-].
    exists d. simpl. auto.
  - rewrite (UnregisterDevice_fault _ _ Hd). discriminate.
Qed.

Lemma call_PostCommit_cases (device : Handle) (hw_layers : HWLayers)
    (s s' : State) :
  call res_mgr (CallPostCommit device hw_layers) s = Done tt s' ->
  exists d, heap s !! device = Some d /\ s' = PostCommit_state res_mgr d hw_layers s.
Proof.
  unfold call. destruct (heap s !! device) as [d|] eqn:Hd.
  - rewrite (PostCommit_run _ _ _ _ Hd). intros [= <-]. now exists d.
  - rewrite (PostCommit_fault _ _ _ Hd). discriminate.
Qed.

(** *** Safe mode and the two bit-sets *)

(** C3: whatever sequence of calls led to [s], a further [RegisterDevice],
    [UnregisterDevice] or [PostCommit] call takes [safe_mode_] from [true]
    to [false] exactly when it is a [PostCommit] and [configured_displays_],
    with the bit of the committing device's type set, equals
    [registered_displays_]; after [RegisterDevice] or [UnregisterDevice]
    the flag is [false] only if it was [false] before. *)
Theorem safe_mode_cleared_only_by_PostCommit (c : Call) (s s' : State) :
  call res_mgr c s = Done tt s' ->
  (safe_mode_ s = true ->
   (safe_mode_ s' = false <->
    exists device hw_layers d,
      c = CallPostCommit device hw_layers /\
      heap s !! device = Some d /\
      SET_BIT (configured_displays_ s) (device_type d)
        = registered_displays_ s)) /\
  (forall type attributes new_ok,
     c = CallRegisterDevice type attributes new_ok ->
     safe_mode_ s' = false -> safe_mode_ s = false) /\
  (forall device,
     c = CallUnregisterDevice device ->
     safe_mode_ s' = false -> safe_mode_ s = false).
Proof.
  intros Hcall. destruct c as [type attributes new_ok|device|device hw_layers].
  - apply call_RegisterDevice_cases in Hcall as [_ [[_ Hs]|[_ Hs]]];
      (split; [intros Hsafe; split|split]).
    + congruence.
    + intros (? & ? & ? & [=] & _).
    + intros; congruence.
    + discriminate.
    + congruence.
    + intros (? & ? & ? & [=] & _).
    + intros; congruence.
    + discriminate.
  - apply call_UnregisterDevice_cases in Hcall as (d & _ & _ & _ & Hs).
    split; [intros Hsafe; split|split].
    + congruence.
    + intros (? & ? & ? & [=] & _).
    + discriminate.
    + intros; congruence.
  - apply call_PostCommit_cases in Hcall as (d & Hd & ->).
    split; [intros Hsafe; split|split]; try discriminate.
    + simpl. intros Hs. exists device, hw_layers, d.
      repeat split; [assumption|].
      destruct (Z.eqb_spec (SET_BIT (configured_displays_ s) (device_type d))
                  (registered_displays_ s)); congruence.
    + intros (device' & hw' & d' & [= <- <-] & Hd' & Heq).
      assert (d' = d) as -> by congruence.
      simpl. rewrite Heq, Z.eqb_refl. reflexivity.
Qed.

(** C4: from a freshly constructed manager, after every sequence of
    [RegisterDevice], [UnregisterDevice] and [PostCommit] calls in which each
    [UnregisterDevice] and [PostCommit] is made on a live handle whose device
    type is in [registered_displays_], [configured_displays_] is a subset of
    [registered_displays_]. *)
Theorem configured_subset_registered (r : R) (pd pl : P) (cs : list Call)
    (s : State) :
  calls_on_registered res_mgr cs (CompManager_new r pd pl) = Some s ->
  subset_bits (configured_displays_ s) (registered_displays_ s).
Proof.
  assert (Hinit : subset_bits (configured_displays_ (CompManager_new r pd pl))
                    (registered_displays_ (CompManager_new r pd pl)))
    by reflexivity.
  revert Hinit. generalize (CompManager_new r pd pl) as s0.
  induction cs as [|c cs IH]; intros s0 Hinv Hrun; simpl in Hrun.
  - now inversion Hrun; subst.
  - destruct (targets_registered c s0) eqn:Hpre; [|discriminate].
    destruct (call res_mgr c s0) as [[] s1| |] eqn:Hcall; try discriminate.
    apply (IH s1); [|assumption]. clear IH Hrun.
    destruct c as [type attributes new_ok|device|device hw_layers].
    + apply call_RegisterDevice_cases in Hcall as [Hc [[Hr _]|[Hr _]]];
        rewrite Hc, Hr; [assumption|now apply subset_bits_register].
    + apply call_UnregisterDevice_cases in Hcall as (d & _ & Hr & Hc & _).
      rewrite Hc, Hr. now apply subset_bits_unregister.
    + apply call_PostCommit_cases in Hcall as (d & Hd & ->).
      simpl in Hpre. rewrite Hd in Hpre. simpl.
      now apply subset_bits_commit.
Qed.

(** C6: a [RegisterDevice] call that returns [kErrorNone] has set the bit of
    the given type in [registered_displays_], has handed out the handle of a
    device it allocated for that type, and has set [safe_mode_] to [true],
    whatever the flag and the two bit-sets were before. *)
Theorem RegisterDevice_success (type : DeviceType)
    (attributes : HWDeviceAttributes) (new_ok : bool) (s s' : State)
    (error : DisplayError) (out : option Handle) :
  RegisterDevice res_mgr type attributes new_ok s = Done (error, out) s' ->
  error = kErrorNone ->
  registered_displays_ s' = SET_BIT (registered_displays_ s) type /\
  has_type (registered_displays_ s') type = true /\
  (exists device d,
     out = Some device /\ heap s !! device = None /\
     heap s' !! device = Some d /\ device_type d = type) /\
  safe_mode_ s' = true.
Proof.
  intros Hrun ->. destruct new_ok.
  - rewrite RegisterDevice_run in Hrun.
    destruct (rm_RegisterDevice res_mgr type attributes (res_mgr_ s))
      as [[e rm_device] r'].
    destruct (is_error e) eqn:He.
    + injection Hrun as Herr _ _. subst e. discriminate.
    + injection Hrun as <- <-. simpl.
      repeat split; [apply has_type_SET_BIT|].
      exists (new_handle s), (mkDevice (mkConstraints false) rm_device type).
      repeat split; [apply new_handle_fresh|apply lookup_insert_eq].
  - rewrite RegisterDevice_no_memory in Hrun. discriminate.
Qed.

(** C7: when the resource manager's [RegisterDevice] fails, the manager's
    [RegisterDevice] returns that very error and no handle, the device it
    allocated is gone from the heap, and [registered_displays_],
    [configured_displays_] and [safe_mode_] (as well as the strategy
    fields) are what they were; no store to them is traced. *)
Theorem RegisterDevice_refusal (type : DeviceType)
    (attributes : HWDeviceAttributes) (s : State)
    (error : DisplayError) (rm_device : Handle) (r' : R) :
  rm_RegisterDevice res_mgr type attributes (res_mgr_ s)
    = (error, rm_device, r') ->
  error <> kErrorNone ->
  exists s',
    RegisterDevice res_mgr type attributes true s = Done (error, None) s' /\
    heap s' = heap s /\
    registered_displays_ s' = registered_displays_ s /\
    configured_displays_ s' = configured_displays_ s /\
    safe_mode_ s' = safe_mode_ s /\
    strategy_lib_ s' = strategy_lib_ s /\
    strategy_intf_ s' = strategy_intf_ s /\
    trace s' = trace s ++ [EvResRegisterDevice type].
Proof.
  intros Hrm Herr. rewrite RegisterDevice_run, Hrm.
  assert (is_error error = true) as -> by (destruct error; simpl; congruence).
  eexists. split; [reflexivity|]. simpl. repeat split.
Qed.

(** C10: for a live device, a second [PostCommit] right after the first
    leaves [registered_displays_], [configured_displays_] and [safe_mode_]
    as the first one left them. *)
Theorem PostCommit_idempotent (device : Handle) (hw_layers hw_layers' : HWLayers)
    (s : State) (d : CompManagerDevice) :
  heap s !! device = Some d ->
  exists s1 s2,
    PostCommit res_mgr device hw_layers s = Done tt s1 /\
    PostCommit res_mgr device hw_layers' s1 = Done tt s2 /\
    registered_displays_ s2 = registered_displays_ s1 /\
    configured_displays_ s2 = configured_displays_ s1 /\
    safe_mode_ s2 = safe_mode_ s1.
Proof.
  intros Hd.
  exists (PostCommit_state res_mgr d hw_layers s),
         (PostCommit_state res_mgr d hw_layers' (PostCommit_state res_mgr d hw_layers s)).
  split; [now apply PostCommit_run|].
  split; [now apply PostCommit_run|].
  simpl. rewrite SET_BIT_idem. repeat split.
  destruct (SET_BIT (configured_displays_ s) (device_type d)
            =? registered_displays_ s)%Z; reflexivity.
Qed.

(** *** Order of effects in [PostCommit] *)

(** C2 (as the code has it): [PostCommit] on a live device first stores
    [configured_displays_] with the bit of the device's type set, then
    stores [false] to [safe_mode_] when the two bit-sets are equal, and only
    then calls the resource manager's [PostCommit]; these are all the
    events of the call. *)
Theorem PostCommit_stores_then_notifies (device : Handle)
    (hw_layers : HWLayers) (s : State) (d : CompManagerDevice) :
  heap s !! device = Some d ->
  exists s',
    PostCommit res_mgr device hw_layers s = Done tt s' /\
    let configured := SET_BIT (configured_displays_ s) (device_type d) in
    trace s'
    = trace s
        ++ [EvStoreConfigured configured]
        ++ (if (configured =? registered_displays_ s)%Z
            then [EvStoreSafeMode false] else [])
        ++ [EvResPostCommit (res_mgr_device d)].
Proof.
  intros Hd. exists (PostCommit_state res_mgr d hw_layers s).
  split; [now apply PostCommit_run | reflexivity].
Qed.

(** *** [Init] and the strategy library *)

(** X19: when the resource manager's [Init] succeeds,
    [Init] returns [kErrorNone] whatever the loader does; and when the load
    attempt leaves [strategy_intf_] null (it was null and [dlopen] or
    [dlsym] gave null, or the entry function left it null), the library, if
    it was opened, is closed again as the last event, [strategy_lib_] is
    null and [strategy_intf_] points to [strategy_default_]. *)
Theorem Init_falls_back_without_instance (hw_res_info : HWResourceInfo)
    (ld : Loader) (s : State) (r' : R) :
  rm_Init res_mgr hw_res_info (res_mgr_ s) = (kErrorNone, r') ->
  exists s',
    Init res_mgr hw_res_info ld s = Done kErrorNone s' /\
    (no_instance ld (strategy_intf_ s) ->
     strategy_intf_ s' = Some DefaultStrategy /\
     strategy_lib_ s' = None /\
     (forall lib, dlopen_result ld = Some lib ->
        exists t, trace s' = trace s ++ t ++ [EvDlclose lib]) /\
     (dlopen_result ld = None ->
        trace s' = trace s ++ [EvResInit hw_res_info; EvDlopen])).
Proof.
  intros Hrm. unfold Init, no_instance. run_m. rewrite Hrm. run_m.
  destruct (dlopen_result ld) as [lib|] eqn:Hopen; run_m.
  - destruct (dlsym_found ld) eqn:Hsym; run_m.
    + destruct (snd (get_strategy_intf ld (strategy_intf_ s))) as [p|] eqn:Hp;
        run_m; rewrite ?Hp; run_m.
      * eexists. split; [reflexivity|]. discriminate.
      * eexists. split; [reflexivity|]. intros _. simpl.
        repeat split; [|discriminate].
        intros lib' [= <-].
        exists [EvResInit hw_res_info; EvDlopen; EvDlsym;
                EvGetStrategyInterface].
        now rewrite <- !app_assoc.
    + destruct (strategy_intf_ s) as [p|] eqn:Hp; run_m.
      * eexists. split; [reflexivity|]. discriminate.
      * eexists. split; [reflexivity|]. intros _. simpl.
        repeat split; [|discriminate].
        intros lib' [= <-]. exists [EvResInit hw_res_info; EvDlopen; EvDlsym].
        now rewrite <- !app_assoc.
  - destruct (strategy_intf_ s) as [p|] eqn:Hp; run_m.
    + eexists. split; [reflexivity|]. discriminate.
    + eexists. split; [reflexivity|]. intros _. simpl.
      repeat split; [discriminate|].
      intros _. now rewrite <- !app_assoc.
Qed.

(** *** [Prepare] *)

Lemma PrepareStrategyConstraints_run (device : Handle) (hw_layers : HWLayers)
    (s : State) (d : CompManagerDevice) :
  heap s !! device = Some d ->
  PrepareStrategyConstraints device hw_layers s
  = Done tt (PrepareStrategyConstraints_state device d hw_layers s).
Proof.
  intros Hd. unfold PrepareStrategyConstraints,
    PrepareStrategyConstraints_state.
  run_m. rewrite Hd. run_m. rewrite Hd. run_m.
  destruct (flags (info hw_layers) =? 0)%Z; run_m.
  - now rewrite orb_false_r.
  - rewrite lookup_insert_eq. run_m. rewrite lookup_insert_eq. run_m.
    now rewrite insert_insert_eq, orb_true_r.
Qed.

Lemma PrepareStrategyConstraints_fault (device : Handle)
    (hw_layers : HWLayers) (s : State) :
  heap s !! device = None ->
  PrepareStrategyConstraints device hw_layers s = Fault.
Proof. intros Hd. unfold PrepareStrategyConstraints. run_m. now rewrite Hd. Qed.

Lemma same_manager_refl (s : State) : same_manager s s.
Proof. repeat split. Qed.

Lemma same_manager_trans (s1 s2 s3 : State) :
  same_manager s1 s2 -> same_manager s2 s3 -> same_manager s1 s3.
Proof.
  unfold same_manager. intros (?&?&?&?&?&?) (?&?&?&?&?&?).
  repeat split; congruence.
Qed.

Lemma intf_GetNextStrategy_cases (c : StrategyConstraints) (i : HWLayersInfo)
    (s : State) :
  (strategy_intf_ s = None /\
   intf_GetNextStrategy strategy_default strategy_loaded c i s = Fault) \/
  (exists target error i' s1,
     strategy_intf_ s = Some target /\
     intf_GetNextStrategy strategy_default strategy_loaded c i s
       = Done (error, i') s1 /\
     same_manager s s1 /\
     trace s1 = trace s ++ [EvGetNextStrategy target c i]).
Proof.
  run_m. destruct (strategy_intf_ s) as [[|]|] eqn:Hp; [right|right|now left].
  - destruct (GetNextStrategy strategy_loaded c i (loaded_strategy s))
      as [[error i'] p'] eqn:Hg.
    exists LoadedStrategy, error, i'. eexists.
    split; [reflexivity|]. run_m.
    split; [reflexivity|]. split; [|reflexivity].
    repeat split; assumption.
  - destruct (GetNextStrategy strategy_default c i (strategy_default_ s))
      as [[error i'] p'] eqn:Hg.
    exists DefaultStrategy, error, i'. eexists.
    split; [reflexivity|]. run_m.
    split; [reflexivity|]. split; [|reflexivity].
    repeat split; assumption.
Qed.

Lemma res_Acquire_run (h : Handle) (hw_layers : HWLayers) (s : State) :
  exists error hw_layers' s1,
    res_Acquire res_mgr h hw_layers s = Done (error, hw_layers') s1 /\
    rm_Acquire res_mgr h hw_layers (res_mgr_ s)
      = (error, hw_layers', res_mgr_ s1) /\
    same_manager s s1 /\
    trace s1 = trace s ++ [EvResAcquire h hw_layers].
Proof.
  run_m.
  destruct (rm_Acquire res_mgr h hw_layers (res_mgr_ s))
    as [[error hw_layers'] r'] eqn:Ha.
  exists error, hw_layers'. eexists. run_m.
  split; [reflexivity|]. repeat split.
Qed.

Lemma load_device_run (device : Handle) (s : State) (d : CompManagerDevice) :
  heap s !! device = Some d -> load_device device s = Done d s.
Proof. intros Hd. unfold load_device. now rewrite Hd. Qed.

Lemma loop_event_session (c : StrategyConstraints) (t : list Event)
    (open : bool) :
  forallb (loop_event c) t = true -> session_open open t = open.
Proof.
  induction t as [|e t IH]; simpl; [reflexivity|].
  intros H. apply andb_true_iff in H as [He Ht].
  destruct e; simpl in He; try discriminate; now apply IH.
Qed.

Lemma loop_event_session_stop (c : StrategyConstraints) (t : list Event)
    (open : bool) (h : Handle) :
  forallb (loop_event c) t = true ->
  session_open open (t ++ [EvResStop h]) = false.
Proof.
  revert open. induction t as [|e t IH]; intros open; simpl; [reflexivity|].
  intros H. apply andb_true_iff in H as [He Ht].
  destruct e; simpl in He; try discriminate; now apply IH.
Qed.

Lemma loop_event_safe (c : StrategyConstraints) (t : list Event) :
  safe_mode c = true ->
  forallb (loop_event c) t = true -> forallb provider_saw_safe t = true.
Proof.
  intros Hc. induction t as [|e t IH]; simpl; [reflexivity|].
  intros H. apply andb_true_iff in H as [He Ht].
  rewrite (IH Ht), andb_true_r.
  destruct e; simpl in *; try reflexivity.
  rewrite Hc in He. now destruct (safe_mode c0).
Qed.

(** The loop of [Prepare], returned or still looping, has left the heap and
    the manager's fields alone and has added strategy calls with the
    device's constraints and [Acquire] calls only, a strategy call first. *)
Lemma Prepare_loop_events (device : Handle) (d : CompManagerDevice)
    (fuel : nat) :
  forall (hw_layers : HWLayers) (s s' : State),
    heap s !! device = Some d ->
    final_state
      (Prepare_loop res_mgr strategy_default strategy_loaded fuel device
         hw_layers s) = Some s' ->
    same_manager s s' /\
    exists t,
      trace s' = trace s ++ t /\
      forallb (loop_event (constraints d)) t = true /\
      (fuel <> 0%nat ->
       exists target t',
         t = EvGetNextStrategy target (constraints d) (info hw_layers) :: t').
Proof.
  induction fuel as [|fuel IH]; intros hw_layers s s' Hd Hfin.
  - injection Hfin as <-. split; [apply same_manager_refl|].
    exists []. rewrite app_nil_r. repeat split. congruence.
  - cbn [Prepare_loop] in Hfin. unfold bind in Hfin.
    rewrite (load_device_run _ _ _ Hd) in Hfin.
    destruct (intf_GetNextStrategy_cases (constraints d) (info hw_layers) s)
      as [[_ Hf]|(target & error & i' & s1 & _ & Hg & Hs1 & Ht1)].
    { rewrite Hf in Hfin. discriminate. }
    rewrite Hg in Hfin. cbn [fst snd] in Hfin.
    assert (Hd1 : heap s1 !! device = Some d)
      by (destruct Hs1 as [-> _]; exact Hd).
    destruct (is_error error).
    + injection Hfin as <-. split; [exact Hs1|].
      exists [EvGetNextStrategy target (constraints d) (info hw_layers)].
      split; [exact Ht1|]. simpl. rewrite eqb_reflx. repeat split. eauto.
    + rewrite (load_device_run _ _ _ Hd1) in Hfin.
      destruct (res_Acquire_run (res_mgr_device d) (set_info hw_layers i') s1)
        as (e2 & hw2 & s2 & Ha & _ & Hs2 & Ht2).
      rewrite Ha in Hfin. cbn [fst snd] in Hfin.
      assert (Hd2 : heap s2 !! device = Some d)
        by (destruct Hs2 as [-> _]; exact Hd1).
      assert (Hs12 : same_manager s s2) by (eapply same_manager_trans; eauto).
      destruct (is_error e2).
      * destruct (IH hw2 s2 s' Hd2 Hfin) as (Hs3 & t & Ht & Hall & _).
        split; [eapply same_manager_trans; eauto|].
        exists (EvGetNextStrategy target (constraints d) (info hw_layers)
                :: EvResAcquire (res_mgr_device d) (set_info hw_layers i')
                :: t).
        split; [rewrite Ht, Ht2, Ht1, <- !app_assoc; reflexivity|].
        simpl. rewrite eqb_reflx, Hall. repeat split. eauto.
      * injection Hfin as <-. split; [exact Hs12|].
        exists [EvGetNextStrategy target (constraints d) (info hw_layers);
                EvResAcquire (res_mgr_device d) (set_info hw_layers i')].
        split; [rewrite Ht2, Ht1, <- !app_assoc; reflexivity|].
        simpl. rewrite eqb_reflx. repeat split. eauto.
Qed.

(** C8: when the layers carry a validation failure ([flags] is not zero),
    [Prepare], returned or still looping, has left [safe_mode_] as it was,
    has stored constraints with [safe_mode] set in the device, and after
    [Start] has handed the strategy constraints with [safe_mode] set on
    every call, the first of which follows [Start] at once. *)
Theorem Prepare_validation_failure_forces_safe (fuel : nat) (device : Handle)
    (hw_layers : HWLayers) (s s' : State) :
  flags (info hw_layers) <> 0%Z ->
  final_state
    (Prepare res_mgr strategy_default strategy_loaded fuel device hw_layers s)
    = Some s' ->
  safe_mode_ s' = safe_mode_ s /\
  (exists d', heap s' !! device = Some d' /\
              safe_mode (constraints d') = true) /\
  exists rm_device t,
    trace s' = trace s ++ EvResStart rm_device :: t /\
    forallb provider_saw_safe t = true /\
    (fuel <> 0%nat ->
     exists target t',
       t = EvGetNextStrategy target (mkConstraints true) (info hw_layers)
           :: t').
Proof.
  intros Hflags Hfin. unfold Prepare in Hfin. unfold bind at 1 in Hfin.
  destruct (heap s !! device) as [d|] eqn:Hd.
  2: { rewrite (PrepareStrategyConstraints_fault _ _ _ Hd) in Hfin.
       discriminate. }
  rewrite (PrepareStrategyConstraints_run _ _ _ _ Hd) in Hfin.
  set (s0 := PrepareStrategyConstraints_state device d hw_layers s) in *.
  set (d0 := mkDevice (mkConstraints true) (res_mgr_device d) (device_type d)).
  assert (Hd0 : heap s0 !! device = Some d0).
  { unfold s0, PrepareStrategyConstraints_state. cbn [heap with_heap].
    rewrite lookup_insert_eq.
    destruct (Z.eqb_spec (flags (info hw_layers)) 0) as [Hz|_]; [contradiction|].
    now rewrite orb_true_r. }
  unfold bind at 1 in Hfin. rewrite (load_device_run _ _ _ Hd0) in Hfin.
  unfold bind at 1 in Hfin. unfold res_Start at 1 in Hfin.
  revert Hfin. run_m. intros Hfin.
  set (s1 := with_res_mgr_ _ _) in Hfin.
  assert (Hd1 : heap s1 !! device = Some d0) by exact Hd0.
  destruct (Prepare_loop res_mgr strategy_default strategy_loaded fuel device
              hw_layers s1) as [[x hw'] s2| |s2] eqn:Hloop;
    [| discriminate |];
    (assert (Hfin2 : final_state
               (Prepare_loop res_mgr strategy_default strategy_loaded fuel
                  device hw_layers s1) = Some s2) by now rewrite Hloop);
    destruct (Prepare_loop_events device d0 fuel hw_layers s1 s2 Hd1 Hfin2)
      as (Hs2 & t & Ht & Hall & Hhead);
    (assert (Hd2 : heap s2 !! device = Some d0)
       by (destruct Hs2 as [-> _]; exact Hd1));
    (assert (Hsafe : safe_mode_ s2 = safe_mode_ s)
       by now destruct Hs2 as (_&_&_&_&_&->));
    (assert (Htr : trace s2 = trace s ++ EvResStart (res_mgr_device d) :: t)
       by (rewrite Ht; unfold s1; simpl; now rewrite <- app_assoc));
    apply (loop_event_safe (constraints d0)) in Hall; try reflexivity.
  - cbn [fst snd] in Hfin. destruct x as [error|].
    + injection Hfin as <-. split; [exact Hsafe|].
      split; [now exists d0|].
      exists (res_mgr_device d), t. repeat split; assumption.
    + rewrite Hd2 in Hfin. injection Hfin as <-. cbn.
      split; [exact Hsafe|]. split; [now exists d0|].
      exists (res_mgr_device d), (t ++ [EvResStop (res_mgr_device d)]).
      split; [rewrite Htr, <- app_assoc; reflexivity|].
      split; [rewrite forallb_app, Hall; reflexivity|].
      intros Hf. destruct (Hhead Hf) as (target & t' & ->).
      now exists target, (t' ++ [EvResStop (res_mgr_device d)]).
  - injection Hfin as <-. split; [exact Hsafe|].
    split; [now exists d0|].
    exists (res_mgr_device d), t. repeat split; assumption.
Qed.

Lemma Prepare_loop_return_is_error (device : Handle) (fuel : nat) :
  forall (hw_layers hw_layers' : HWLayers) (s s' : State)
         (error : DisplayError),
    Prepare_loop res_mgr strategy_default strategy_loaded fuel device
      hw_layers s = Done (LoopReturn error, hw_layers') s' ->
    is_error error = true.
Proof.
  induction fuel as [|fuel IH]; intros hw_layers hw_layers' s s' error Hrun.
  - discriminate.
  - cbn [Prepare_loop] in Hrun. unfold bind in Hrun.
    destruct (load_device device s) as [d s0| |]; try discriminate.
    destruct (intf_GetNextStrategy strategy_default strategy_loaded
                (constraints d) (info hw_layers) s0)
      as [[e1 i1] s1| |]; try discriminate.
    cbn [fst snd] in Hrun. destruct (is_error e1) eqn:He1.
    + injection Hrun as <- _ _. exact He1.
    + destruct (load_device device s1) as [d1 s1'| |]; try discriminate.
      destruct (res_Acquire res_mgr (res_mgr_device d1)
                  (set_info hw_layers i1) s1')
        as [[e2 hw2] s2| |]; try discriminate.
      cbn [fst snd] in Hrun. destruct (is_error e2).
      * now apply (IH _ _ _ _ _ Hrun).
      * discriminate.
Qed.

(** Whenever [Prepare] returns, the resource session it opened with [Start]
    is open at the end exactly when the value returned is an error. *)
Lemma Prepare_session (fuel : nat) (device : Handle) (hw_layers : HWLayers)
    (s s' : State) (error : DisplayError) (hw_layers' : HWLayers) :
  Prepare res_mgr strategy_default strategy_loaded fuel device hw_layers s
    = Done (error, hw_layers') s' ->
  exists t, trace s' = trace s ++ t /\
            session_open false t = is_error error.
Proof.
  intros Hrun. unfold Prepare in Hrun. unfold bind at 1 in Hrun.
  destruct (heap s !! device) as [d|] eqn:Hd.
  2: { rewrite (PrepareStrategyConstraints_fault _ _ _ Hd) in Hrun.
       discriminate. }
  rewrite (PrepareStrategyConstraints_run _ _ _ _ Hd) in Hrun.
  set (s0 := PrepareStrategyConstraints_state device d hw_layers s) in *.
  assert (Hd0 : exists d0, heap s0 !! device = Some d0).
  { unfold s0, PrepareStrategyConstraints_state. cbn [heap with_heap].
    rewrite lookup_insert_eq. eauto. }
  destruct Hd0 as [d0 Hd0].
  unfold bind at 1 in Hrun. rewrite (load_device_run _ _ _ Hd0) in Hrun.
  unfold bind at 1 in Hrun. unfold res_Start at 1 in Hrun.
  revert Hrun. run_m. intros Hrun.
  set (s1 := with_res_mgr_ _ _) in Hrun.
  assert (Hd1 : heap s1 !! device = Some d0) by exact Hd0.
  destruct (Prepare_loop res_mgr strategy_default strategy_loaded fuel device
              hw_layers s1) as [[x hw'] s2| |s2] eqn:Hloop; try discriminate.
  assert (Hfin2 : final_state
            (Prepare_loop res_mgr strategy_default strategy_loaded fuel
               device hw_layers s1) = Some s2) by now rewrite Hloop.
  destruct (Prepare_loop_events device d0 fuel hw_layers s1 s2 Hd1 Hfin2)
    as (Hs2 & t & Ht & Hall & _).
  assert (Hd2 : heap s2 !! device = Some d0)
    by (destruct Hs2 as [-> _]; exact Hd1).
  assert (Htr : trace s2 = trace s ++ EvResStart (res_mgr_device d0) :: t)
    by (rewrite Ht; unfold s1; simpl; now rewrite <- app_assoc).
  cbn [fst snd] in Hrun. destruct x as [e|].
  - injection Hrun as <- <- <-.
    exists (EvResStart (res_mgr_device d0) :: t). split; [exact Htr|].
    cbn [session_open].
    rewrite (loop_event_session _ _ true Hall).
    symmetry. eapply Prepare_loop_return_is_error. exact Hloop.
  - rewrite Hd2 in Hrun. injection Hrun as <- <- <-.
    exists (EvResStart (res_mgr_device d0)
            :: t ++ [EvResStop (res_mgr_device d0)]).
    split; [cbn; rewrite Htr, <- app_assoc; reflexivity|].
    cbn [session_open is_error].
    now apply (loop_event_session_stop (constraints d0)).
Qed.

End Properties.

(** ** Concrete runs *)

(** C1, at a strategy that is exhausted on its first call: [Prepare] returns
    the strategy's error right after [Start] and the strategy call; no
    [Stop] follows, so the resource session is still open on return. *)
Theorem Prepare_exhausted_leaves_session_open (fuel : nat) :
  exists s',
    Prepare stub_ok list_strategy list_strategy (S fuel) 0%nat (stub_layers 0)
      (stub_ready [])
    = Done (kErrorCode 1, stub_layers 0) s' /\
    trace s'
    = trace (stub_ready [])
        ++ [EvResStart 40%nat;
            EvGetNextStrategy LoadedStrategy (mkConstraints true)
              (mkInfo 0 0%nat)] /\
    session_open false
      [EvResStart 40%nat;
       EvGetNextStrategy LoadedStrategy (mkConstraints true) (mkInfo 0 0%nat)]
    = true.
Proof. eexists. split; [|split]; vm_compute; reflexivity. Qed.

(** C2 fails as stated: in [PostCommit] for the registered primary display
    the resource manager's [PostCommit] is not called before the store to
    [configured_displays_]. *)
Lemma PostCommit_notifies_last :
  ~ arbiter_notified_first
      (events_of (PostCommit stub_ok 0%nat (stub_layers 0)) (stub_ready [])).
Proof.
  intros (i & j & Hi & Hj & Hlt).
  vm_compute in Hi. vm_compute in Hj.
  injection Hi as <-. injection Hj as <-. lia.
Qed.

(** The order of effects, on the registered primary display. *)
Lemma PostCommit_stores_then_notifies_witness :
  exists s',
    PostCommit stub_ok 0%nat (stub_layers 0) (stub_ready []) = Done tt s' /\
    trace s'
    = trace (stub_ready [])
        ++ [EvStoreConfigured 1; EvStoreSafeMode false; EvResPostCommit 40%nat].
Proof.
  destruct (PostCommit_stores_then_notifies stub_ok 0%nat (stub_layers 0)
              (stub_ready [])
              (mkDevice (mkConstraints false) 40%nat kPrimary))
    as (s' & Hrun & Htrace).
  - vm_compute. reflexivity.
  - exists s'. split; [exact Hrun | exact Htrace].
Defined.

(** The fallback, when the library lacks the entry symbol. *)
Lemma Init_falls_back_without_instance_witness :
  exists s',
    Init stub_ok 0%nat loader_no_symbol (stub_new []) = Done kErrorNone s' /\
    strategy_intf_ s' = Some DefaultStrategy /\
    strategy_lib_ s' = None /\
    exists t, trace s' = trace (stub_new []) ++ t ++ [EvDlclose 7%nat].
Proof.
  destruct (Init_falls_back_without_instance stub_ok 0%nat loader_no_symbol
              (stub_new []) tt) as (s' & Hrun & Hfall).
  - reflexivity.
  - exists s'. split; [exact Hrun|].
    destruct Hfall as (Hintf & Hlib & Hclose & _).
    + reflexivity.
    + split; [exact Hintf|]. split; [exact Hlib|].
      apply Hclose. reflexivity.
Defined.

(** The first commit of the only registered display clears the flag. *)
Lemma safe_mode_cleared_only_by_PostCommit_witness :
  safe_mode_ (stub_ready []) = true /\
  (safe_mode_
     (state_after (PostCommit stub_ok 0%nat (stub_layers 0)) (stub_ready []))
   = false <->
   exists device hw_layers d,
     CallPostCommit 0%nat (stub_layers 0) = CallPostCommit device hw_layers /\
     heap (stub_ready []) !! device = Some d /\
     SET_BIT (configured_displays_ (stub_ready [])) (device_type d)
     = registered_displays_ (stub_ready [])).
Proof.
  assert (Hsafe : safe_mode_ (stub_ready []) = true)
    by (vm_compute; reflexivity).
  split; [exact Hsafe|].
  refine (proj1 (safe_mode_cleared_only_by_PostCommit stub_ok
                   (CallPostCommit 0%nat (stub_layers 0)) (stub_ready [])
                   (state_after (PostCommit stub_ok 0%nat (stub_layers 0))
                      (stub_ready []))
                   _) Hsafe).
  vm_compute. reflexivity.
Defined.

(** The inclusion after [stub_calls]. *)
Lemma configured_subset_registered_witness :
  exists s,
    calls_on_registered stub_ok stub_calls (stub_new []) = Some s /\
    configured_displays_ s = 2%Z /\
    registered_displays_ s = 2%Z /\
    subset_bits (configured_displays_ s) (registered_displays_ s).
Proof.
  destruct (calls_on_registered stub_ok stub_calls (stub_new [])) as [s|] eqn:E.
  - exists s. split; [reflexivity|].
    pose proof (configured_subset_registered stub_ok tt [0%nat] [] stub_calls
                  s E) as Hsub.
    vm_compute in E. injection E as <-.
    split; [vm_compute; reflexivity|].
    split; [vm_compute; reflexivity | exact Hsub].
  - vm_compute in E. discriminate E.
Defined.

(** Registering the external display next to the primary one. *)
Lemma RegisterDevice_success_witness :
  has_type
    (registered_displays_
       (state_after (RegisterDevice stub_ok kHDMI 0%nat true) (stub_ready [])))
    kHDMI = true /\
  safe_mode_
    (state_after (RegisterDevice stub_ok kHDMI 0%nat true) (stub_ready []))
  = true.
Proof.
  destruct (RegisterDevice_success stub_ok kHDMI 0%nat true (stub_ready [])
              (state_after (RegisterDevice stub_ok kHDMI 0%nat true)
                 (stub_ready []))
              kErrorNone (Some 1%nat))
    as (_ & Hbit & _ & Hsafe).
  - vm_compute. reflexivity.
  - reflexivity.
  - split; [exact Hbit | exact Hsafe].
Defined.

(** A resource manager that refuses the registration. *)
Lemma RegisterDevice_refusal_witness :
  exists s',
    RegisterDevice (stub_res_mgr kErrorNone (kErrorCode 5) accept_all)
      kHDMI 0%nat true (stub_ready [])
    = Done (kErrorCode 5, None) s' /\
    heap s' = heap (stub_ready []) /\
    registered_displays_ s' = registered_displays_ (stub_ready []) /\
    configured_displays_ s' = configured_displays_ (stub_ready []) /\
    safe_mode_ s' = safe_mode_ (stub_ready []).
Proof.
  destruct (RegisterDevice_refusal
              (stub_res_mgr kErrorNone (kErrorCode 5) accept_all)
              kHDMI 0%nat (stub_ready []) (kErrorCode 5) 40%nat tt)
    as (s' & Hrun & Hheap & Hreg & Hconf & Hsafe & _).
  - vm_compute. reflexivity.
  - discriminate.
  - exists s'. repeat split; assumption.
Defined.

(** Two commits in a row for the primary display. *)
Lemma PostCommit_idempotent_witness :
  exists s1 s2,
    PostCommit stub_ok 0%nat (stub_layers 0) (stub_ready []) = Done tt s1 /\
    PostCommit stub_ok 0%nat (stub_layers 0) s1 = Done tt s2 /\
    registered_displays_ s2 = registered_displays_ s1 /\
    configured_displays_ s2 = configured_displays_ s1 /\
    safe_mode_ s2 = safe_mode_ s1.
Proof.
  apply (PostCommit_idempotent stub_ok 0%nat (stub_layers 0) (stub_layers 0)
           (stub_ready [])
           (mkDevice (mkConstraints false) 40%nat kPrimary)).
  vm_compute. reflexivity.
Defined.

(** A validation failure while [safe_mode_] is [false]. *)
Lemma Prepare_validation_failure_forces_safe_witness :
  safe_mode_ (stub_committed [5%nat]) = false /\
  safe_mode_
    (state_after
       (Prepare stub_ok list_strategy list_strategy 3 0%nat (stub_layers 1))
       (stub_committed [5%nat]))
  = safe_mode_ (stub_committed [5%nat]) /\
  exists rm_device t,
    trace
      (state_after
         (Prepare stub_ok list_strategy list_strategy 3 0%nat (stub_layers 1))
         (stub_committed [5%nat]))
    = trace (stub_committed [5%nat]) ++ EvResStart rm_device :: t /\
    forallb provider_saw_safe t = true /\
    (3%nat <> 0%nat ->
     exists target t',
       t = EvGetNextStrategy target (mkConstraints true)
             (info (stub_layers 1)) :: t').
Proof.
  split; [vm_compute; reflexivity|].
  destruct (Prepare_validation_failure_forces_safe stub_ok list_strategy
              list_strategy 3 0%nat (stub_layers 1) (stub_committed [5%nat])
              (state_after
                 (Prepare stub_ok list_strategy list_strategy 3 0%nat
                    (stub_layers 1))
                 (stub_committed [5%nat])))
    as (Hsafe & _ & Hseen).
  - simpl. lia.
  - vm_compute. reflexivity.
  - split; [exact Hsafe | exact Hseen].
Defined.

(** ** Further properties *)

Section More.

Context {R P : Type}.
Variable res_mgr : ResManager R.
Variable strategy_default : StrategyInterface P.
Variable strategy_loaded : StrategyInterface P.

Abbreviation MState := (@State R P).

(** *** [Init] and [Deinit] *)

(** X1: when the resource manager's [Init] fails, [Init] returns that error
    at once: the loader is not consulted (the call to the resource manager
    is the only event) and the strategy fields, the bit-sets, the flag and
    the heap are untouched. *)
Theorem Init_arbiter_failure (hw_res_info : HWResourceInfo) (ld : Loader)
    (s : MState) (error : DisplayError) (r' : R) :
  rm_Init res_mgr hw_res_info (res_mgr_ s) = (error, r') ->
  error <> kErrorNone ->
  exists s',
    Init res_mgr hw_res_info ld s = Done error s' /\
    same_manager s s' /\
    res_mgr_ s' = r' /\
    trace s' = trace s ++ [EvResInit hw_res_info].
Proof.
  intros Hrm Herr. unfold Init. run_m. rewrite Hrm. run_m.
  assert (is_error error = true) as -> by (destruct error; simpl; congruence).
  eexists. split; [reflexivity|]. repeat split.
Qed.

Lemma no_instance_pointer (ld : Loader) (old : option StrategyRef) :
  no_instance ld old <-> pointer_after_load ld old = None.
Proof.
  unfold no_instance, pointer_after_load.
  destruct (dlopen_result ld); [destruct (dlsym_found ld)|]; reflexivity.
Qed.

(** X2: when the resource manager's [Init] succeeds and the load attempt
    leaves an object in [strategy_intf_] (whatever the entry function
    returned), [Init] returns [kErrorNone], keeps that object as the active
    strategy and keeps what [dlopen] gave in [strategy_lib_]; it closes no
    library. *)
Theorem Init_keeps_stored_instance (hw_res_info : HWResourceInfo)
    (ld : Loader) (s : MState) (r' : R) (p : StrategyRef) :
  rm_Init res_mgr hw_res_info (res_mgr_ s) = (kErrorNone, r') ->
  pointer_after_load ld (strategy_intf_ s) = Some p ->
  exists s' t,
    Init res_mgr hw_res_info ld s = Done kErrorNone s' /\
    strategy_intf_ s' = Some p /\
    strategy_lib_ s' = dlopen_result ld /\
    trace s' = trace s ++ t /\
    count_events is_Dlclose t = 0%nat.
Proof.
  intros Hrm. unfold Init, pointer_after_load. run_m. rewrite Hrm. run_m.
  destruct (dlopen_result ld) as [lib|] eqn:Hopen; run_m;
    [destruct (dlsym_found ld) eqn:Hsym; run_m|];
    intros Hp; rewrite Hp; run_m; do 2 eexists;
    (split; [reflexivity|]); cbn;
    (split; [reflexivity || assumption|]);
    (split; [reflexivity|]);
    (split; [rewrite <- !app_assoc; reflexivity|]); reflexivity.
Qed.

(** X3: when the resource manager's [Init] succeeds, [Init] followed by
    [Deinit] closes the library exactly once if [dlopen] had opened one
    (inside [Init] when it fell back, inside [Deinit] otherwise) and never
    when [dlopen] had failed; [Deinit] returns [kErrorNone]. *)
Theorem Init_then_Deinit_closes_once (hw_res_info : HWResourceInfo)
    (ld : Loader) (s : MState) (r' : R) :
  rm_Init res_mgr hw_res_info (res_mgr_ s) = (kErrorNone, r') ->
  exists s' t,
    bind (Init res_mgr hw_res_info ld) (fun _ => Deinit res_mgr) s
    = Done kErrorNone s' /\
    trace s' = trace s ++ t /\
    count_events is_Dlclose t
    = match dlopen_result ld with Some _ => 1%nat | None => 0%nat end /\
    (forall lib, dlopen_result ld = Some lib -> In (EvDlclose lib) t).
Proof.
  intros Hrm. unfold Init, Deinit. run_m. rewrite Hrm. run_m.
  destruct (dlopen_result ld) as [lib|] eqn:Hopen; run_m.
  - destruct (dlsym_found ld) eqn:Hsym; run_m.
    + destruct (snd (get_strategy_intf ld (strategy_intf_ s))) as [p|] eqn:Hp;
        run_m; rewrite ?Hp; run_m; do 2 eexists;
        (split; [reflexivity|]); cbn;
        (split; [rewrite <- !app_assoc; reflexivity|]);
        (split; [reflexivity|]);
        intros lib' [= <-]; cbn; tauto.
    + destruct (strategy_intf_ s) as [p|] eqn:Hp; run_m; do 2 eexists;
        (split; [reflexivity|]); cbn;
        (split; [rewrite <- !app_assoc; reflexivity|]);
        (split; [reflexivity|]);
        intros lib' [= <-]; cbn; tauto.
  - destruct (strategy_intf_ s) as [p|] eqn:Hp; run_m; do 2 eexists;
      (split; [reflexivity|]); cbn;
      (split; [rewrite <- !app_assoc; reflexivity|]);
      (split; [reflexivity|]); discriminate.
Qed.

(** *** The registry *)

Lemma SET_BIT_absorb (value : Z) (type : DeviceType) :
  has_type value type = true -> SET_BIT value type = value.
Proof.
  unfold has_type. intros H. apply Z.bits_inj'. intros i _.
  rewrite testbit_SET_BIT.
  destruct (Z.eqb_spec (type_index type) i) as [<-|_].
  - rewrite H. reflexivity.
  - apply orb_false_r.
Qed.

Lemma CLEAR_BIT_absent (value : Z) (type : DeviceType) :
  has_type value type = false -> CLEAR_BIT value type = value.
Proof.
  unfold has_type. intros H. apply Z.bits_inj'. intros i _.
  rewrite testbit_CLEAR_BIT.
  destruct (Z.eqb_spec (type_index type) i) as [<-|_].
  - rewrite H. reflexivity.
  - apply andb_true_r.
Qed.

Lemma CLEAR_SET_BIT (value : Z) (type : DeviceType) :
  CLEAR_BIT (SET_BIT value type) type = CLEAR_BIT value type.
Proof.
  apply Z.bits_inj'. intros i _.
  rewrite !testbit_CLEAR_BIT, testbit_SET_BIT.
  destruct (Z.testbit value i), (type_index type =? i)%Z; reflexivity.
Qed.

Lemma has_type_CLEAR_BIT (value : Z) (type type' : DeviceType) :
  has_type (CLEAR_BIT value type) type'
  = has_type value type' && negb (type_index type =? type_index type')%Z.
Proof. unfold has_type. apply testbit_CLEAR_BIT. Qed.

(** X5: a [RegisterDevice] call that returns [kErrorNone] hands out a handle
    that was not live; behind it is a device with the handle the resource
    manager gave, the requested type and constraints not in safe mode; every
    other handle refers to what it referred to before, and
    [configured_displays_] is unchanged. *)
Theorem RegisterDevice_fresh_handle (type : DeviceType)
    (attributes : HWDeviceAttributes) (new_ok : bool) (s s' : MState)
    (device : Handle) :
  RegisterDevice res_mgr type attributes new_ok s
  = Done (kErrorNone, Some device) s' ->
  heap s !! device = None /\
  heap s' !! device
  = Some (mkDevice (mkConstraints false)
            (snd (fst (rm_RegisterDevice res_mgr type attributes (res_mgr_ s))))
            type) /\
  (forall other, other <> device -> heap s' !! other = heap s !! other) /\
  configured_displays_ s' = configured_displays_ s.
Proof.
  destruct new_ok.
  - rewrite RegisterDevice_run.
    destruct (rm_RegisterDevice res_mgr type attributes (res_mgr_ s))
      as [[e rm_device] r'].
    destruct (is_error e); [discriminate|].
    intros [= <- <-]. cbn.
    split; [apply new_handle_fresh|].
    split; [apply lookup_insert_eq|].
    split; [|reflexivity].
    intros other Hne. apply lookup_insert_ne. congruence.
  - rewrite RegisterDevice_no_memory. discriminate.
Qed.

(** X6: registering a display whose type is not registered and then
    unregistering the handle just obtained restores the heap and both
    bit-sets (given that [configured_displays_] was within
    [registered_displays_]), but leaves [safe_mode_] set: the flag raised
    by [RegisterDevice] is not taken back by [UnregisterDevice]. *)
Theorem Register_Unregister_round_trip (type : DeviceType)
    (attributes : HWDeviceAttributes) (s s1 : MState) (device : Handle) :
  RegisterDevice res_mgr type attributes true s
  = Done (kErrorNone, Some device) s1 ->
  has_type (registered_displays_ s) type = false ->
  subset_bits (configured_displays_ s) (registered_displays_ s) ->
  exists s2,
    UnregisterDevice res_mgr device s1 = Done kErrorNone s2 /\
    heap s2 = heap s /\
    registered_displays_ s2 = registered_displays_ s /\
    configured_displays_ s2 = configured_displays_ s /\
    safe_mode_ s2 = true.
Proof.
  rewrite RegisterDevice_run.
  destruct (rm_RegisterDevice res_mgr type attributes (res_mgr_ s))
    as [[e rm_device] r'].
  destruct (is_error e); [discriminate|].
  intros [= <- <-] Hreg Hsub.
  erewrite UnregisterDevice_run by (cbn; apply lookup_insert_eq).
  eexists. split; [reflexivity|]. cbn.
  split; [rewrite delete_insert_eq; apply delete_id, new_handle_fresh|].
  split; [rewrite CLEAR_SET_BIT; now apply CLEAR_BIT_absent|].
  split; [|reflexivity].
  apply CLEAR_BIT_absent.
  destruct (has_type (configured_displays_ s) type) eqn:Hc; [|reflexivity].
  rewrite (subset_bits_has_type _ _ _ Hsub Hc) in Hreg. discriminate.
Qed.

(** X7: [UnregisterDevice] on a live handle returns [kErrorNone], clears the
    bit of the device's type in both bit-sets whether or not it was set in
    [configured_displays_], leaves the bits of the other types and the flag
    alone, and removes exactly that handle from the heap. *)
Theorem UnregisterDevice_clears_both (device : Handle) (s : MState)
    (d : CompManagerDevice) :
  heap s !! device = Some d ->
  exists s',
    UnregisterDevice res_mgr device s = Done kErrorNone s' /\
    has_type (registered_displays_ s') (device_type d) = false /\
    has_type (configured_displays_ s') (device_type d) = false /\
    (forall type, type <> device_type d ->
       has_type (registered_displays_ s') type
       = has_type (registered_displays_ s) type /\
       has_type (configured_displays_ s') type
       = has_type (configured_displays_ s) type) /\
    safe_mode_ s' = safe_mode_ s /\
    heap s' !! device = None /\
    (forall other, other <> device -> heap s' !! other = heap s !! other).
Proof.
  intros Hd. rewrite (UnregisterDevice_run _ _ _ _ Hd).
  eexists. split; [reflexivity|]. cbn.
  rewrite !has_type_CLEAR_BIT, Z.eqb_refl, !andb_false_r.
  repeat split.
  - rewrite has_type_CLEAR_BIT.
    destruct (Z.eqb_spec (type_index (device_type d)) (type_index type))
      as [He|_]; [|apply andb_true_r].
    apply type_index_inj in He. congruence.
  - rewrite has_type_CLEAR_BIT.
    destruct (Z.eqb_spec (type_index (device_type d)) (type_index type))
      as [He|_]; [|apply andb_true_r].
    apply type_index_inj in He. congruence.
  - apply lookup_delete_eq.
  - intros other Hne. apply lookup_delete_ne. congruence.
Qed.

(** X8: the bit-sets are kept per type, not per device: unregistering one of
    two live devices of the same type clears the type's bit in
    [registered_displays_] although the other device stays live, so a
    [PostCommit] for that other device no longer meets
    [targets_registered]. *)
Theorem UnregisterDevice_ignores_siblings (h1 h2 : Handle) (s : MState)
    (d1 d2 : CompManagerDevice) (hw_layers : HWLayers) :
  heap s !! h1 = Some d1 ->
  heap s !! h2 = Some d2 ->
  h1 <> h2 ->
  device_type d1 = device_type d2 ->
  exists s',
    UnregisterDevice res_mgr h1 s = Done kErrorNone s' /\
    heap s' !! h2 = Some d2 /\
    has_type (registered_displays_ s') (device_type d2) = false /\
    targets_registered (CallPostCommit h2 hw_layers) s' = false.
Proof.
  intros H1 H2 Hne Htype. rewrite (UnregisterDevice_run _ _ _ _ H1).
  eexists. split; [reflexivity|]. cbn.
  rewrite lookup_delete_ne, H2 by exact Hne.
  rewrite Htype, has_type_CLEAR_BIT, Z.eqb_refl, andb_false_r.
  repeat split.
Qed.

(** X9: when every registered display is configured
    ([configured_displays_] equals [registered_displays_]), registering a
    display and then committing on the handle obtained ends with
    [safe_mode_] cleared and the two bit-sets equal again, both with the new
    type's bit set. *)
Theorem Register_then_PostCommit_normal (type : DeviceType)
    (attributes : HWDeviceAttributes) (hw_layers : HWLayers)
    (s s1 : MState) (device : Handle) :
  RegisterDevice res_mgr type attributes true s
  = Done (kErrorNone, Some device) s1 ->
  configured_displays_ s = registered_displays_ s ->
  safe_mode_ s1 = true /\
  exists s2,
    PostCommit res_mgr device hw_layers s1 = Done tt s2 /\
    safe_mode_ s2 = false /\
    registered_displays_ s2 = SET_BIT (registered_displays_ s) type /\
    configured_displays_ s2 = registered_displays_ s2.
Proof.
  rewrite RegisterDevice_run.
  destruct (rm_RegisterDevice res_mgr type attributes (res_mgr_ s))
    as [[e rm_device] r'].
  destruct (is_error e); [discriminate|].
  intros [= <- <-] Heq. split; [reflexivity|].
  erewrite PostCommit_run by (cbn; apply lookup_insert_eq).
  eexists. split; [reflexivity|]. cbn.
  rewrite Heq, Z.eqb_refl. repeat split.
Qed.

(** *** Invariants along sequences of calls *)

(** X10: from a freshly constructed manager, after every sequence of calls
    in which each [UnregisterDevice] and [PostCommit] is made on a live
    handle whose type is registered, [safe_mode_] is [false] only if
    [configured_displays_] equals [registered_displays_]: out of safe mode
    every registered type has been committed. *)
Theorem normal_mode_all_configured (r : R) (pd pl : P) (cs : list Call)
    (s : MState) :
  calls_on_registered res_mgr cs (CompManager_new r pd pl) = Some s ->
  safe_mode_ s = false ->
  configured_displays_ s = registered_displays_ s.
Proof.
  assert (Hinit : safe_mode_ (CompManager_new r pd pl) = false ->
                  configured_displays_ (CompManager_new r pd pl)
                  = registered_displays_ (CompManager_new r pd pl))
    by reflexivity.
  revert Hinit. generalize (CompManager_new r pd pl) as s0.
  induction cs as [|c cs IH]; intros s0 Hinv Hrun; simpl in Hrun.
  - now inversion Hrun; subst.
  - destruct (targets_registered c s0) eqn:Hpre; [|discriminate].
    destruct (call res_mgr c s0) as [[] s1| |] eqn:Hcall; try discriminate.
    apply (IH s1); [|assumption]. clear IH Hrun.
    destruct c as [type attributes new_ok|device|device hw_layers].
    + apply call_RegisterDevice_cases in Hcall as [Hc [[Hr Hs]|[Hr Hs]]].
      * rewrite Hc, Hr, Hs. exact Hinv.
      * rewrite Hs. discriminate.
    + apply call_UnregisterDevice_cases in Hcall as (d & _ & Hr & Hc & Hs).
      rewrite Hc, Hr, Hs. intros Hn. now rewrite (Hinv Hn).
    + apply call_PostCommit_cases in Hcall as (d & Hd & ->).
      simpl in Hpre. rewrite Hd in Hpre. cbn.
      destruct (Z.eqb_spec (SET_BIT (configured_displays_ s0) (device_type d))
                  (registered_displays_ s0)) as [He|Hne]; [easy|].
      intros Hn. exfalso. apply Hne.
      rewrite (Hinv Hn). now apply SET_BIT_absorb.
Qed.

(** *** [Prepare] *)

Lemma Prepare_unfold (fuel : nat) (device : Handle) (hw_layers : HWLayers)
    (s : MState) (d : CompManagerDevice) :
  heap s !! device = Some d ->
  Prepare res_mgr strategy_default strategy_loaded fuel device hw_layers s
  = match Prepare_loop res_mgr strategy_default strategy_loaded fuel device
            hw_layers (Prepare_started res_mgr device d hw_layers s) with
    | Done (LoopReturn error, hw_layers') s2 => Done (error, hw_layers') s2
    | Done (LoopBreak, hw_layers') s2 =>
        match heap s2 !! device with
        | Some d2 => Done (kErrorNone, hw_layers') (Prepare_stopped res_mgr d2 s2)
        | None => Fault
        end
    | Fault => Fault
    | Spin s2 => Spin s2
    end.
Proof.
  intros Hd. unfold Prepare. unfold bind at 1.
  rewrite (PrepareStrategyConstraints_run _ _ _ _ Hd).
  unfold bind at 1, load_device at 1.
  unfold PrepareStrategyConstraints_state at 1. cbn [heap with_heap].
  rewrite lookup_insert_eq.
  unfold bind at 1, res_Start at 1. run_m.
  unfold Prepare_started. cbv zeta. cbn [res_mgr_device].
  destruct (Prepare_loop _ _ _ _ _ _ _) as [[[e|] hw'] s2| |s2];
    try reflexivity.
  cbn. destruct (heap s2 !! device); reflexivity.
Qed.

Lemma is_error_false (e : DisplayError) : is_error e = false <-> e = kErrorNone.
Proof. destruct e; simpl; split; congruence. Qed.

Lemma is_error_true (e : DisplayError) : is_error e = true <-> e <> kErrorNone.
Proof. destruct e; simpl; split; congruence. Qed.

Lemma intf_GetNextStrategy_origin (c : StrategyConstraints) (i : HWLayersInfo)
    (s s1 : MState) (e : DisplayError) (i' : HWLayersInfo) :
  intf_GetNextStrategy strategy_default strategy_loaded c i s
  = Done (e, i') s1 ->
  strategy_reports strategy_default e \/ strategy_reports strategy_loaded e.
Proof.
  run_m. destruct (strategy_intf_ s) as [[|]|]; [| |discriminate].
  - destruct (GetNextStrategy strategy_loaded c i (loaded_strategy s))
      as [[e0 i0] p0] eqn:Hg.
    run_m. intros [= <- _ _]. right. exists c, i, (loaded_strategy s).
    now rewrite Hg.
  - destruct (GetNextStrategy strategy_default c i (strategy_default_ s))
      as [[e0 i0] p0] eqn:Hg.
    run_m. intros [= <- _ _]. left. exists c, i, (strategy_default_ s).
    now rewrite Hg.
Qed.

(** One round of the loop of [Prepare] on a live device. *)
Lemma Prepare_loop_round (fuel : nat) (device : Handle) (hw_layers : HWLayers)
    (s : MState) (d : CompManagerDevice) :
  heap s !! device = Some d ->
  (strategy_intf_ s = None /\
   Prepare_loop res_mgr strategy_default strategy_loaded (S fuel) device
     hw_layers s = Fault) \/
  (exists target e1 i1 s1,
     strategy_intf_ s = Some target /\
     same_manager s s1 /\
     trace s1
     = trace s ++ [EvGetNextStrategy target (constraints d) (info hw_layers)] /\
     (strategy_reports strategy_default e1 \/
      strategy_reports strategy_loaded e1) /\
     ((is_error e1 = true /\
       Prepare_loop res_mgr strategy_default strategy_loaded (S fuel) device
         hw_layers s
       = Done (LoopReturn e1, set_info hw_layers i1) s1) \/
      (is_error e1 = false /\
       exists e2 hw2 s2,
         rm_Acquire res_mgr (res_mgr_device d) (set_info hw_layers i1)
           (res_mgr_ s1) = (e2, hw2, res_mgr_ s2) /\
         same_manager s1 s2 /\
         trace s2
         = trace s1
             ++ [EvResAcquire (res_mgr_device d) (set_info hw_layers i1)] /\
         Prepare_loop res_mgr strategy_default strategy_loaded (S fuel) device
           hw_layers s
         = if is_error e2
           then Prepare_loop res_mgr strategy_default strategy_loaded fuel
                  device hw2 s2
           else Done (LoopBreak, hw2) s2))).
Proof.
  intros Hd. cbn [Prepare_loop]. unfold bind.
  rewrite (load_device_run _ _ _ Hd).
  destruct (intf_GetNextStrategy_cases strategy_default strategy_loaded
              (constraints d) (info hw_layers) s)
    as [[Hn Hf]|(target & e1 & i1 & s1 & Hp & Hg & Hs1 & Ht1)].
  { left. rewrite Hf. now split. }
  right. exists target, e1, i1, s1. rewrite Hg. cbn [fst snd].
  split; [exact Hp|]. split; [exact Hs1|]. split; [exact Ht1|].
  split; [exact (intf_GetNextStrategy_origin _ _ _ _ _ _ Hg)|].
  assert (Hd1 : heap s1 !! device = Some d)
    by (destruct Hs1 as [-> _]; exact Hd).
  destruct (is_error e1); [left; now split|right].
  split; [reflexivity|].
  rewrite (load_device_run _ _ _ Hd1).
  destruct (res_Acquire_run res_mgr (res_mgr_device d)
              (set_info hw_layers i1) s1)
    as (e2 & hw2 & s2 & Ha & Hrm & Hs2 & Ht2).
  exists e2, hw2, s2. rewrite Ha. cbn [fst snd].
  split; [exact Hrm|]. split; [exact Hs2|]. split; [exact Ht2|].
  now destruct (is_error e2).
Qed.

Lemma count_events_app (p : Event -> bool) (t1 t2 : list Event) :
  count_events p (t1 ++ t2) = (count_events p t1 + count_events p t2)%nat.
Proof. unfold count_events. now rewrite List.filter_app, length_app. Qed.

(** A loop that breaks has made as many [Acquire] calls as strategy calls,
    at least one; a loop that returns has made one strategy call more. *)
Lemma Prepare_loop_counts (device : Handle) (d : CompManagerDevice)
    (fuel : nat) :
  forall (hw_layers hw_layers' : HWLayers) (s s' : MState) (x : LoopExit),
    heap s !! device = Some d ->
    Prepare_loop res_mgr strategy_default strategy_loaded fuel device
      hw_layers s = Done (x, hw_layers') s' ->
    exists t,
      trace s' = trace s ++ t /\
      match x with
      | LoopBreak =>
          count_events is_GetNextStrategy t = count_events is_ResAcquire t /\
          (1 <= count_events is_ResAcquire t)%nat
      | LoopReturn e =>
          count_events is_GetNextStrategy t
          = S (count_events is_ResAcquire t) /\
          (strategy_reports strategy_default e \/
           strategy_reports strategy_loaded e)
      end.
Proof.
  induction fuel as [|fuel IH]; intros hw_layers hw_layers' s s' x Hd Hrun.
  - discriminate.
  - destruct (Prepare_loop_round fuel device hw_layers s d Hd)
      as [[_ Hf]|(target & e1 & i1 & s1 & _ & Hs1 & Ht1 & Ho & Hcase)].
    { rewrite Hf in Hrun. discriminate. }
    destruct Hcase as [[He1 Heq]|[He1 (e2 & hw2 & s2 & _ & Hs2 & Ht2 & Heq)]];
      rewrite Heq in Hrun.
    + injection Hrun as <- <- <-. eexists. split; [exact Ht1|].
      split; [reflexivity | exact Ho].
    + assert (Hd2 : heap s2 !! device = Some d).
      { destruct Hs2 as [-> _]. destruct Hs1 as [-> _]. exact Hd. }
      destruct (is_error e2).
      * destruct (IH _ _ _ _ _ Hd2 Hrun) as (t & Ht & Hx).
        exists (EvGetNextStrategy target (constraints d) (info hw_layers)
                :: EvResAcquire (res_mgr_device d) (set_info hw_layers i1)
                :: t).
        split; [rewrite Ht, Ht2, Ht1, <- !app_assoc; reflexivity|].
        unfold count_events in *. cbn.
        destruct x; destruct Hx as [Hc Hx]; (split; [lia|]);
          [exact Hx | lia].
      * injection Hrun as <- <- <-.
        exists [EvGetNextStrategy target (constraints d) (info hw_layers);
                EvResAcquire (res_mgr_device d) (set_info hw_layers i1)].
        split; [rewrite Ht2, Ht1, <- !app_assoc; reflexivity|].
        cbn. split; [reflexivity | lia].
Qed.

Lemma Prepare_started_lookup (device : Handle) (d : CompManagerDevice)
    (hw_layers : HWLayers) (s : MState) :
  heap (Prepare_started res_mgr device d hw_layers s) !! device
  = Some (mkDevice
            (mkConstraints
               (safe_mode_ s || negb (flags (info hw_layers) =? 0)%Z))
            (res_mgr_device d) (device_type d)).
Proof. cbn. apply lookup_insert_eq. Qed.

(** X12: [Prepare] on a live device, returned or still looping, has changed
    nothing of the manager but the constraints stored in that device, which
    are in safe mode exactly when [safe_mode_] is set or the layers carry a
    validation failure: the bit-sets, the flag, the strategy fields and
    every other device are as before. *)
Theorem Prepare_preserves_manager (fuel : nat) (device : Handle)
    (hw_layers : HWLayers) (s s' : MState) (d : CompManagerDevice) :
  heap s !! device = Some d ->
  final_state
    (Prepare res_mgr strategy_default strategy_loaded fuel device hw_layers s)
  = Some s' ->
  registered_displays_ s' = registered_displays_ s /\
  configured_displays_ s' = configured_displays_ s /\
  safe_mode_ s' = safe_mode_ s /\
  strategy_lib_ s' = strategy_lib_ s /\
  strategy_intf_ s' = strategy_intf_ s /\
  heap s'
  = <[device :=
        mkDevice
          (mkConstraints
             (safe_mode_ s || negb (flags (info hw_layers) =? 0)%Z))
          (res_mgr_device d) (device_type d)]> (heap s).
Proof.
  intros Hd. rewrite (Prepare_unfold _ _ _ _ _ Hd).
  pose proof (Prepare_started_lookup device d hw_layers s) as Hd1.
  destruct (Prepare_loop res_mgr strategy_default strategy_loaded fuel device
              hw_layers (Prepare_started res_mgr device d hw_layers s))
    as [[x hw'] s2| |s2] eqn:Hloop; [| discriminate |];
    (assert (Hfin2 : final_state
               (Prepare_loop res_mgr strategy_default strategy_loaded fuel
                  device hw_layers
                  (Prepare_started res_mgr device d hw_layers s)) = Some s2)
       by now rewrite Hloop);
    destruct (Prepare_loop_events res_mgr strategy_default strategy_loaded
                device _ fuel hw_layers _ s2 Hd1 Hfin2)
      as ((Hh & Hl & Hi & Hr & Hc & Hs) & _).
  - destruct x as [e|].
    + intros [= <-]. rewrite Hh, Hl, Hi, Hr, Hc, Hs. repeat split.
    + rewrite Hh, Hd1. intros [= <-]. cbn.
      rewrite Hh, Hl, Hi, Hr, Hc, Hs. repeat split.
  - intros [= <-]. rewrite Hh, Hl, Hi, Hr, Hc, Hs. repeat split.
Qed.

Lemma loop_event_saw (c : StrategyConstraints) (t : list Event) :
  forallb (loop_event c) t = true ->
  forallb (provider_saw (safe_mode c)) t = true.
Proof.
  induction t as [|e t IH]; simpl; [reflexivity|].
  intros H. apply andb_true_iff in H as [He Ht].
  rewrite (IH Ht), andb_true_r. destruct e; simpl in *; congruence.
Qed.

(** X13: in a [Prepare] call, returned or still looping, every call of the
    strategy is handed constraints whose [safe_mode] is [safe_mode_] or-ed
    with the validation failure of the layers ([flags] not zero); with fuel
    for one round at least, such a call directly follows [Start]. *)
Theorem Prepare_constraints_follow_flag (fuel : nat) (device : Handle)
    (hw_layers : HWLayers) (s s' : MState) :
  final_state
    (Prepare res_mgr strategy_default strategy_loaded fuel device hw_layers s)
  = Some s' ->
  let safe := safe_mode_ s || negb (flags (info hw_layers) =? 0)%Z in
  exists rm_device t,
    trace s' = trace s ++ EvResStart rm_device :: t /\
    forallb (provider_saw safe) t = true /\
    (fuel <> 0%nat ->
     exists target t',
       t = EvGetNextStrategy target (mkConstraints safe) (info hw_layers)
           :: t').
Proof.
  destruct (heap s !! device) as [d|] eqn:Hd.
  2: { unfold Prepare, bind.
       rewrite (PrepareStrategyConstraints_fault _ _ _ Hd). discriminate. }
  rewrite (Prepare_unfold _ _ _ _ _ Hd). intros Hfin safe.
  pose proof (Prepare_started_lookup device d hw_layers s) as Hd1.
  fold safe in Hd1.
  destruct (Prepare_loop res_mgr strategy_default strategy_loaded fuel device
              hw_layers (Prepare_started res_mgr device d hw_layers s))
    as [[x hw'] s2| |s2] eqn:Hloop; [| discriminate |];
    (assert (Hfin2 : final_state
               (Prepare_loop res_mgr strategy_default strategy_loaded fuel
                  device hw_layers
                  (Prepare_started res_mgr device d hw_layers s)) = Some s2)
       by now rewrite Hloop);
    destruct (Prepare_loop_events res_mgr strategy_default strategy_loaded
                device _ fuel hw_layers _ s2 Hd1 Hfin2)
      as ((Hh & _) & t & Ht & Hall & Hhead);
    apply loop_event_saw in Hall; cbn [constraints safe_mode] in Hall, Hhead;
    (assert (Htr : trace s2 = trace s ++ EvResStart (res_mgr_device d) :: t)
       by (rewrite Ht; cbn; now rewrite <- app_assoc)).
  - destruct x as [e|].
    + injection Hfin as <-. exists (res_mgr_device d), t.
      repeat split; assumption.
    + rewrite Hh, Hd1 in Hfin. injection Hfin as <-.
      exists (res_mgr_device d), (t ++ [EvResStop (res_mgr_device d)]).
      split; [cbn; rewrite Htr, <- app_assoc; reflexivity|].
      split; [rewrite forallb_app, Hall; reflexivity|].
      intros Hf. destruct (Hhead Hf) as (target & t' & ->).
      now exists target, (t' ++ [EvResStop (res_mgr_device d)]).
  - injection Hfin as <-. exists (res_mgr_device d), t.
    repeat split; assumption.
Qed.

(** X14: a [Prepare] call that returns [kErrorNone] has called [Start]
    first and [Stop] last, both on the device's resource-manager handle;
    in between it has made strategy calls and [Acquire] calls only, as
    many of the one as of the other and at least one of each. *)
Theorem Prepare_success_brackets_session (fuel : nat) (device : Handle)
    (hw_layers hw_layers' : HWLayers) (s s' : MState)
    (d : CompManagerDevice) :
  heap s !! device = Some d ->
  Prepare res_mgr strategy_default strategy_loaded fuel device hw_layers s
  = Done (kErrorNone, hw_layers') s' ->
  exists t,
    trace s'
    = trace s ++ [EvResStart (res_mgr_device d)] ++ t
        ++ [EvResStop (res_mgr_device d)] /\
    forallb (fun e => is_GetNextStrategy e || is_ResAcquire e) t = true /\
    count_events is_GetNextStrategy t = count_events is_ResAcquire t /\
    (1 <= count_events is_ResAcquire t)%nat.
Proof.
  intros Hd. rewrite (Prepare_unfold _ _ _ _ _ Hd).
  pose proof (Prepare_started_lookup device d hw_layers s) as Hd1.
  destruct (Prepare_loop res_mgr strategy_default strategy_loaded fuel device
              hw_layers (Prepare_started res_mgr device d hw_layers s))
    as [[x hw'] s2| |s2] eqn:Hloop; try discriminate.
  assert (Hfin2 : final_state
            (Prepare_loop res_mgr strategy_default strategy_loaded fuel
               device hw_layers
               (Prepare_started res_mgr device d hw_layers s)) = Some s2)
    by now rewrite Hloop.
  destruct (Prepare_loop_events res_mgr strategy_default strategy_loaded
              device _ fuel hw_layers _ s2 Hd1 Hfin2)
    as ((Hh & _) & t & Ht & Hall & _).
  destruct (Prepare_loop_counts device _ fuel _ _ _ _ _ Hd1 Hloop)
    as (t2 & Ht2 & Hx).
  assert (t2 = t) as -> by (rewrite Ht in Ht2; now apply app_inv_head in Ht2).
  destruct x as [e|].
  - intros [= -> _ _].
    apply Prepare_loop_return_is_error in Hloop. discriminate.
  - rewrite Hh, Hd1. intros [= _ <-]. exists t.
    split; [cbn; rewrite Ht; cbn; rewrite <- !app_assoc; reflexivity|].
    split; [|exact Hx].
    clear - Hall. induction t as [|e t IH]; simpl in *; [reflexivity|].
    apply andb_true_iff in Hall as [He Ht]. rewrite (IH Ht), andb_true_r.
    destruct e; simpl in *; congruence.
Qed.

(** X15: an error [Prepare] returns is one the strategy reported: a refusal
    by [Acquire] is never returned to the caller. *)
Theorem Prepare_error_comes_from_strategy (fuel : nat) (device : Handle)
    (hw_layers hw_layers' : HWLayers) (s s' : MState) (e : DisplayError) :
  Prepare res_mgr strategy_default strategy_loaded fuel device hw_layers s
  = Done (e, hw_layers') s' ->
  e <> kErrorNone ->
  strategy_reports strategy_default e \/ strategy_reports strategy_loaded e.
Proof.
  destruct (heap s !! device) as [d|] eqn:Hd.
  2: { unfold Prepare, bind.
       rewrite (PrepareStrategyConstraints_fault _ _ _ Hd). discriminate. }
  rewrite (Prepare_unfold _ _ _ _ _ Hd).
  pose proof (Prepare_started_lookup device d hw_layers s) as Hd1.
  destruct (Prepare_loop res_mgr strategy_default strategy_loaded fuel device
              hw_layers (Prepare_started res_mgr device d hw_layers s))
    as [[x hw'] s2| |s2] eqn:Hloop; try discriminate.
  destruct (Prepare_loop_counts device _ fuel _ _ _ _ _ Hd1 Hloop)
    as (t & _ & Hx).
  destruct x as [e0|].
  - intros [= <- _ _] _. apply Hx.
  - destruct (heap s2 !! device); [|discriminate].
    intros [= <- _ _] Hne. congruence.
Qed.

(** X16: the loop of [Prepare] has no bound of its own.  With strategies
    that always have a next candidate and a resource manager whose
    [Acquire] refuses every request, [Prepare] on a live device, with a
    strategy installed, is still looping whatever the number of rounds. *)
Theorem Prepare_loops_while_refused (device : Handle) (hw_layers : HWLayers)
    (s : MState) (d : CompManagerDevice) (target : StrategyRef) :
  never_exhausted strategy_default ->
  never_exhausted strategy_loaded ->
  always_refuses res_mgr ->
  heap s !! device = Some d ->
  strategy_intf_ s = Some target ->
  forall fuel, exists s',
    Prepare res_mgr strategy_default strategy_loaded fuel device hw_layers s
    = Spin s' /\
    count_events is_ResAcquire (skipn (length (trace s)) (trace s')) = fuel.
Proof.
  intros Hsd Hsl Hrm Hd Hintf fuel.
  rewrite (Prepare_unfold _ _ _ _ _ Hd).
  pose proof (Prepare_started_lookup device d hw_layers s) as Hd1.
  assert (Hi1 : strategy_intf_ (Prepare_started res_mgr device d hw_layers s)
                = Some target) by exact Hintf.
  assert (Hloop : forall fuel hw (s1 : MState) d1,
            heap s1 !! device = Some d1 ->
            strategy_intf_ s1 = Some target ->
            exists s' t,
              Prepare_loop res_mgr strategy_default strategy_loaded fuel
                device hw s1 = Spin s' /\
              trace s' = trace s1 ++ t /\
              count_events is_ResAcquire t = fuel).
  { clear - Hsd Hsl Hrm. induction fuel as [|fuel IH]; intros hw s1 d1 Hd1 Hi1.
    - exists s1, []. cbn. rewrite app_nil_r. repeat split.
    - destruct (Prepare_loop_round fuel device hw s1 d1 Hd1)
        as [[Hn _]|(tg & e1 & i1 & s2 & _ & Hs2 & Ht2 & Ho & Hcase)];
        [congruence|].
      assert (He1 : e1 = kErrorNone).
      { destruct Ho as [(c & i & p & ->)|(c & i & p & ->)];
          [apply Hsd | apply Hsl]. }
      destruct Hcase as [[He _]|[_ (e2 & hw2 & s3 & Ha & Hs3 & Ht3 & Heq)]].
      { subst e1. discriminate. }
      assert (He2 : is_error e2 = true).
      { apply is_error_true. pose proof (Hrm (res_mgr_device d1)
          (set_info hw i1) (res_mgr_ s2)) as Hr. now rewrite Ha in Hr. }
      rewrite He2 in Heq.
      assert (Hd3 : heap s3 !! device = Some d1).
      { destruct Hs3 as [-> _]. destruct Hs2 as [-> _]. exact Hd1. }
      assert (Hi3 : strategy_intf_ s3 = Some target).
      { destruct Hs3 as (_ & _ & -> & _). destruct Hs2 as (_ & _ & -> & _).
        exact Hi1. }
      destruct (IH hw2 s3 d1 Hd3 Hi3) as (s' & t & Hrun & Ht & Hc).
      exists s'. eexists. split; [now rewrite Heq|].
      split; [rewrite Ht, Ht3, Ht2, <- !app_assoc; reflexivity|].
      unfold count_events in *. cbn. now rewrite Hc. }
  destruct (Hloop fuel hw_layers _ _ Hd1 Hi1) as (s' & t & Hrun & Ht & Hc).
  exists s'. rewrite Hrun. split; [reflexivity|].
  rewrite Ht. cbn. rewrite <- app_assoc, skipn_app, skipn_all, Nat.sub_diag.
  cbn. exact Hc.
Qed.

(** *** [PostCommit] and the other displays *)

(** X17: as long as some other registered type is not configured, a
    [PostCommit] leaves [safe_mode_] as it is: one display alone cannot
    take the manager out of safe mode. *)
Theorem PostCommit_blocked_by_unconfigured (device : Handle)
    (hw_layers : HWLayers) (s : MState) (d : CompManagerDevice)
    (other : DeviceType) :
  heap s !! device = Some d ->
  other <> device_type d ->
  has_type (registered_displays_ s) other = true ->
  has_type (configured_displays_ s) other = false ->
  exists s',
    PostCommit res_mgr device hw_layers s = Done tt s' /\
    safe_mode_ s' = safe_mode_ s /\
    has_type (configured_displays_ s') other = false.
Proof.
  intros Hd Hne Hr Hc. rewrite (PostCommit_run _ _ _ _ _ Hd).
  eexists. split; [reflexivity|]. cbn.
  assert (Hbit : has_type (SET_BIT (configured_displays_ s) (device_type d))
                   other = false).
  { unfold has_type in *. rewrite testbit_SET_BIT, Hc.
    destruct (Z.eqb_spec (type_index (device_type d)) (type_index other))
      as [He|_]; [|reflexivity].
    apply type_index_inj in He. congruence. }
  split; [|exact Hbit].
  destruct (Z.eqb_spec (SET_BIT (configured_displays_ s) (device_type d))
              (registered_displays_ s)) as [He|_]; [|reflexivity].
  rewrite He in Hbit. congruence.
Qed.

(** X18: a [PostCommit] on a live device whose type is not in
    [registered_displays_] (its type's bit was cleared when a sibling of
    the same type was unregistered) sets a bit in [configured_displays_]
    that [registered_displays_] lacks: the inclusion of the bit-sets is
    lost and [safe_mode_] is left as it was. *)
Theorem PostCommit_unregistered_type (device : Handle) (hw_layers : HWLayers)
    (s : MState) (d : CompManagerDevice) :
  heap s !! device = Some d ->
  has_type (registered_displays_ s) (device_type d) = false ->
  exists s',
    PostCommit res_mgr device hw_layers s = Done tt s' /\
    ~ subset_bits (configured_displays_ s') (registered_displays_ s') /\
    safe_mode_ s' = safe_mode_ s.
Proof.
  intros Hd Hr. rewrite (PostCommit_run _ _ _ _ _ Hd).
  eexists. split; [reflexivity|]. cbn. split.
  - intros Hsub.
    pose proof (subset_bits_has_type _ _ (device_type d) Hsub
                  (has_type_SET_BIT _ _)) as Hin.
    congruence.
  - destruct (Z.eqb_spec (SET_BIT (configured_displays_ s) (device_type d))
                (registered_displays_ s)) as [He|_]; [|reflexivity].
    pose proof (has_type_SET_BIT (configured_displays_ s) (device_type d))
      as Hin.
    rewrite He in Hin. congruence.
Qed.

(** *** The selection loop against any strategy and resource manager *)

Lemma intf_GetNextStrategy_exact (c : StrategyConstraints) (i : HWLayersInfo)
    (s : MState) (target : StrategyRef) (e : DisplayError)
    (i' : HWLayersInfo) (p' : P) :
  strategy_intf_ s = Some target ->
  GetNextStrategy (strategy_of strategy_default strategy_loaded target) c i
    (strategy_state target s) = (e, i', p') ->
  exists s1,
    intf_GetNextStrategy strategy_default strategy_loaded c i s
    = Done (e, i') s1 /\
    same_manager s s1 /\
    strategy_state target s1 = p' /\
    res_mgr_ s1 = res_mgr_ s /\
    trace s1 = trace s ++ [EvGetNextStrategy target c i].
Proof.
  intros Hintf Hg. run_m. rewrite Hintf.
  destruct target; cbn [strategy_of strategy_state] in Hg; rewrite Hg; run_m;
    eexists; (split; [reflexivity|]); cbn; repeat split; assumption.
Qed.

Lemma res_Acquire_exact (h : Handle) (hw_layers hw_layers' : HWLayers)
    (s : MState) (e : DisplayError) (r' : R) :
  rm_Acquire res_mgr h hw_layers (res_mgr_ s) = (e, hw_layers', r') ->
  exists s1,
    res_Acquire res_mgr h hw_layers s = Done (e, hw_layers') s1 /\
    same_manager s s1 /\
    res_mgr_ s1 = r' /\
    (forall target, strategy_state target s1 = strategy_state target s) /\
    trace s1 = trace s ++ [EvResAcquire h hw_layers].
Proof.
  intros Ha. run_m. rewrite Ha. run_m.
  eexists. split; [reflexivity|]. cbn. repeat split.
Qed.

(** The loop of [Prepare] follows the exchange [offers_until_accepted]
    describes and leaves with the accepted candidate. *)
Lemma Prepare_loop_accepts (device : Handle) (d : CompManagerDevice)
    (target : StrategyRef) (n : nat) (p : P) (r : R) (hw_layers : HWLayers)
    (cand : HWLayersInfo) (p' : P) (r' : R) (hw_layers' : HWLayers) :
  offers_until_accepted res_mgr
    (strategy_of strategy_default strategy_loaded target) (constraints d)
    (res_mgr_device d) n p r hw_layers cand p' r' hw_layers' ->
  forall (fuel : nat) (s : MState),
    (n <= fuel)%nat ->
    heap s !! device = Some d ->
    strategy_intf_ s = Some target ->
    strategy_state target s = p ->
    res_mgr_ s = r ->
    exists s' t layers,
      Prepare_loop res_mgr strategy_default strategy_loaded fuel device
        hw_layers s = Done (LoopBreak, hw_layers') s' /\
      same_manager s s' /\
      strategy_state target s' = p' /\
      res_mgr_ s' = r' /\
      trace s' = trace s ++ t ++ [EvResAcquire (res_mgr_device d) layers] /\
      info layers = cand /\
      count_events is_GetNextStrategy t = n /\
      count_events is_ResAcquire t = pred n.
Proof.
  induction 1 as [p r hw cand p' r' hw' Hg Ha
                 |n p r hw refused p1 e hw1 r1 cand p' r' hw' Hg Ha He Hoff IH];
    intros fuel s Hfuel Hd Hintf Hp Hr;
    (destruct fuel as [|fuel]; [lia|]);
    cbn [Prepare_loop]; unfold bind;
    rewrite (load_device_run _ _ _ Hd);
    rewrite <- Hp in Hg;
    destruct (intf_GetNextStrategy_exact _ _ _ _ _ _ _ Hintf Hg)
      as (s1 & -> & Hs1 & Hp1 & Hr1 & Ht1);
    cbn [fst snd is_error];
    (assert (Hd1 : heap s1 !! device = Some d)
       by (destruct Hs1 as [-> _]; exact Hd));
    rewrite (load_device_run _ _ _ Hd1);
    rewrite <- Hr, <- Hr1 in Ha;
    destruct (res_Acquire_exact _ _ _ _ _ _ Ha)
      as (s2 & -> & Hs2 & Hr2 & Hp2 & Ht2);
    cbn [fst snd is_error].
  - exists s2, [EvGetNextStrategy target (constraints d) (info hw)],
      (set_info hw cand).
    split; [reflexivity|].
    split; [eapply same_manager_trans; eassumption|].
    split; [now rewrite Hp2|]. split; [exact Hr2|].
    split; [rewrite Ht2, Ht1, <- app_assoc; reflexivity|].
    repeat split.
  - apply is_error_true in He. rewrite He.
    destruct (IH fuel s2) as (s' & t & layers & Hrun & Hs' & Hp' & Hr' & Ht
                              & Hc & Hng & Hna).
    + lia.
    + destruct Hs2 as [-> _]. exact Hd1.
    + destruct Hs2 as (_ & _ & -> & _). destruct Hs1 as (_ & _ & -> & _).
      exact Hintf.
    + now rewrite Hp2.
    + exact Hr2.
    + exists s',
        (EvGetNextStrategy target (constraints d) (info hw)
         :: EvResAcquire (res_mgr_device d) (set_info hw refused) :: t),
        layers.
      split; [exact Hrun|].
      split; [eapply same_manager_trans;
                [eapply same_manager_trans; eassumption | exact Hs']|].
      split; [exact Hp'|]. split; [exact Hr'|].
      split; [rewrite Ht, Ht2, Ht1, <- !app_assoc; reflexivity|].
      split; [exact Hc|].
      unfold count_events in *. cbn. rewrite Hng, Hna.
      split; [reflexivity|].
      inversion Hoff; reflexivity.
Qed.

(** C5: take any strategy and any resource manager such that, in the cycle
    of this [Prepare] call (constraints as [PrepareStrategyConstraints]
    stores them, resource manager as [Start] leaves it), the strategy
    offers [N] candidates in a row of which the resource manager's
    [Acquire] refuses the first [N - 1], with whatever error, and accepts
    the [N]-th, [cand].  Then [Prepare], given fuel for [N] rounds, returns
    [kErrorNone] with the layers of the accepting [Acquire]; between
    [Start] and [Stop] it makes exactly [N] strategy calls and [N]
    [Acquire] calls, the last [Acquire] being the one on [cand]; and the
    strategy is left in the state of its [N]-th call, so no candidate was
    requested after the accepted one. *)
Theorem Prepare_accepts_Nth_candidate (N fuel : nat) (device : Handle)
    (hw_layers : HWLayers) (s : MState) (d : CompManagerDevice)
    (target : StrategyRef) (cand : HWLayersInfo) (pN : P) (rN : R)
    (hwN : HWLayers) :
  heap s !! device = Some d ->
  strategy_intf_ s = Some target ->
  offers_until_accepted res_mgr
    (strategy_of strategy_default strategy_loaded target)
    (mkConstraints (safe_mode_ s || negb (flags (info hw_layers) =? 0)%Z))
    (res_mgr_device d) N (strategy_state target s)
    (rm_Start res_mgr (res_mgr_device d) (res_mgr_ s)) hw_layers
    cand pN rN hwN ->
  (N <= fuel)%nat ->
  exists s' t layers,
    Prepare res_mgr strategy_default strategy_loaded fuel device hw_layers s
    = Done (kErrorNone, hwN) s' /\
    strategy_state target s' = pN /\
    res_mgr_ s' = rm_Stop res_mgr (res_mgr_device d) rN /\
    trace s'
    = trace s ++ [EvResStart (res_mgr_device d)] ++ t
        ++ [EvResAcquire (res_mgr_device d) layers;
            EvResStop (res_mgr_device d)] /\
    info layers = cand /\
    count_events is_GetNextStrategy t = N /\
    S (count_events is_ResAcquire t) = N.
Proof.
  intros Hd Hintf Hoff Hfuel.
  rewrite (Prepare_unfold _ _ _ _ _ Hd).
  pose proof (Prepare_started_lookup device d hw_layers s) as Hd1.
  set (d0 := mkDevice _ _ _) in Hd1.
  assert (Hp1 : strategy_state target
                  (Prepare_started res_mgr device d hw_layers s)
                = strategy_state target s) by now destruct target.
  destruct (Prepare_loop_accepts device d0 target N _ _ hw_layers cand pN rN
              hwN Hoff fuel (Prepare_started res_mgr device d hw_layers s)
              Hfuel Hd1 Hintf Hp1 eq_refl)
    as (s2 & t & layers & Hrun & Hs2 & Hp2 & Hr2 & Ht & Hc & Hng & Hna).
  rewrite Hrun.
  assert (Hd2 : heap s2 !! device = Some d0)
    by (destruct Hs2 as [-> _]; exact Hd1).
  rewrite Hd2.
  exists (Prepare_stopped res_mgr d0 s2), t, layers.
  split; [reflexivity|].
  split; [destruct target; exact Hp2|].
  split; [cbn; now rewrite Hr2|].
  split; [cbn; rewrite Ht; cbn; rewrite <- !app_assoc; reflexivity|].
  split; [exact Hc|]. split; [exact Hng|].
  rewrite Hna. inversion Hoff; reflexivity.
Qed.

(** X20: when the resource manager's [Init] succeeds, no strategy is
    installed yet, and the entry function leaves its out-parameter alone
    whenever it reports an error, every load failure ([dlopen] or [dlsym]
    giving null, or the entry function reporting an error) ends with
    [Init] returning [kErrorNone], [strategy_default_] installed,
    [strategy_lib_] null and the library, if it was opened, closed as the
    last event. *)
Theorem Init_falls_back_on_reported_failure (hw_res_info : HWResourceInfo)
    (ld : Loader) (s : MState) (r' : R) :
  rm_Init res_mgr hw_res_info (res_mgr_ s) = (kErrorNone, r') ->
  strategy_intf_ s = None ->
  stores_nothing_on_failure ld ->
  load_failed ld (strategy_intf_ s) ->
  exists s',
    Init res_mgr hw_res_info ld s = Done kErrorNone s' /\
    strategy_intf_ s' = Some DefaultStrategy /\
    strategy_lib_ s' = None /\
    (forall lib, dlopen_result ld = Some lib ->
       exists t, trace s' = trace s ++ t ++ [EvDlclose lib]).
Proof.
  intros Hrm Hnull Hquiet Hfail.
  assert (Hend : pointer_after_load ld (strategy_intf_ s) = None).
  { unfold pointer_after_load. destruct Hfail as [Ho|[Hs|He]].
    - now rewrite Ho.
    - rewrite Hs. now destruct (dlopen_result ld).
    - rewrite (Hquiet _ He), Hnull.
      destruct (dlopen_result ld); [destruct (dlsym_found ld)|]; reflexivity. }
  revert Hend. unfold Init, pointer_after_load. run_m. rewrite Hrm. run_m.
  destruct (dlopen_result ld) as [lib|] eqn:Hopen; run_m.
  - destruct (dlsym_found ld) eqn:Hsym; run_m.
    + intros Hp. rewrite Hp. run_m. eexists. split; [reflexivity|]. cbn.
      repeat split. intros lib' [= <-].
      exists [EvResInit hw_res_info; EvDlopen; EvDlsym;
              EvGetStrategyInterface].
      now rewrite <- !app_assoc.
    + intros _. rewrite Hnull. run_m. eexists. split; [reflexivity|]. cbn.
      repeat split. intros lib' [= <-].
      exists [EvResInit hw_res_info; EvDlopen; EvDlsym].
      now rewrite <- !app_assoc.
  - intros _. rewrite Hnull. run_m. eexists. split; [reflexivity|]. cbn.
    repeat split. discriminate.
Qed.

End More.

(** ** Concrete runs of the further properties *)

(** A resource manager that cannot be initialised. *)
Lemma Init_arbiter_failure_witness :
  exists s',
    Init stub_no_init 0%nat loader_ok (stub_new []) = Done (kErrorCode 4) s' /\
    same_manager (stub_new []) s' /\
    res_mgr_ s' = tt /\
    trace s' = trace (stub_new []) ++ [EvResInit 0%nat].
Proof.
  apply (Init_arbiter_failure stub_no_init 0%nat loader_ok (stub_new [])
           (kErrorCode 4) tt).
  - reflexivity.
  - discriminate.
Defined.

(** An entry function that stores its object and reports an error. *)
Lemma Init_keeps_stored_instance_witness :
  exists s' t,
    Init stub_ok 0%nat loader_entry_error (stub_new []) = Done kErrorNone s' /\
    strategy_intf_ s' = Some LoadedStrategy /\
    strategy_lib_ s' = Some 7%nat /\
    trace s' = trace (stub_new []) ++ t /\
    count_events is_Dlclose t = 0%nat.
Proof.
  apply (Init_keeps_stored_instance stub_ok 0%nat loader_entry_error
           (stub_new []) tt LoadedStrategy).
  - reflexivity.
  - reflexivity.
Defined.

(** A library without the entry symbol is closed by [Init] and not again
    by [Deinit]. *)
Lemma Init_then_Deinit_closes_once_witness :
  exists s' t,
    bind (Init stub_ok 0%nat loader_no_symbol) (fun _ => Deinit stub_ok)
      (stub_new [])
    = Done kErrorNone s' /\
    trace s' = trace (stub_new []) ++ t /\
    count_events is_Dlclose t = 1%nat /\
    (forall lib, Some 7%nat = Some lib -> In (EvDlclose lib) t).
Proof.
  apply (Init_then_Deinit_closes_once stub_ok 0%nat loader_no_symbol
           (stub_new []) tt).
  reflexivity.
Defined.

(** The external display registered next to the primary one. *)
Lemma RegisterDevice_fresh_handle_witness :
  heap (stub_ready []) !! 1%nat = None /\
  heap (state_after (RegisterDevice stub_ok kHDMI 0%nat true) (stub_ready []))
    !! 1%nat
  = Some (mkDevice (mkConstraints false) 40%nat kHDMI) /\
  (forall other, other <> 1%nat ->
     heap (state_after (RegisterDevice stub_ok kHDMI 0%nat true)
             (stub_ready [])) !! other
     = heap (stub_ready []) !! other) /\
  configured_displays_
    (state_after (RegisterDevice stub_ok kHDMI 0%nat true) (stub_ready []))
  = configured_displays_ (stub_ready []).
Proof.
  apply (RegisterDevice_fresh_handle stub_ok kHDMI 0%nat true (stub_ready [])
           (state_after (RegisterDevice stub_ok kHDMI 0%nat true)
              (stub_ready []))
           1%nat).
  vm_compute. reflexivity.
Defined.

(** The external display registered and unregistered again. *)
Lemma Register_Unregister_round_trip_witness :
  exists s2,
    UnregisterDevice stub_ok 1%nat
      (state_after (RegisterDevice stub_ok kHDMI 0%nat true) (stub_ready []))
    = Done kErrorNone s2 /\
    heap s2 = heap (stub_ready []) /\
    registered_displays_ s2 = registered_displays_ (stub_ready []) /\
    configured_displays_ s2 = configured_displays_ (stub_ready []) /\
    safe_mode_ s2 = true.
Proof.
  apply (Register_Unregister_round_trip stub_ok kHDMI 0%nat (stub_ready [])
           (state_after (RegisterDevice stub_ok kHDMI 0%nat true)
              (stub_ready []))
           1%nat).
  - vm_compute. reflexivity.
  - vm_compute. reflexivity.
  - vm_compute. reflexivity.
Defined.

(** The primary display, never committed, is unregistered. *)
Lemma UnregisterDevice_clears_both_witness :
  exists s',
    UnregisterDevice stub_ok 0%nat (stub_ready []) = Done kErrorNone s' /\
    has_type (registered_displays_ s') kPrimary = false /\
    has_type (configured_displays_ s') kPrimary = false /\
    heap s' !! 0%nat = None.
Proof.
  destruct (UnregisterDevice_clears_both stub_ok 0%nat (stub_ready [])
              (mkDevice (mkConstraints false) 40%nat kPrimary))
    as (s' & Hrun & Hr & Hc & _ & _ & Hgone & _).
  - vm_compute. reflexivity.
  - exists s'. repeat split; assumption.
Defined.

(** Two devices for the primary display, the first one unregistered. *)
Lemma UnregisterDevice_ignores_siblings_witness :
  exists s',
    UnregisterDevice stub_ok 0%nat stub_twins = Done kErrorNone s' /\
    heap s' !! 1%nat = Some (mkDevice (mkConstraints false) 40%nat kPrimary) /\
    has_type (registered_displays_ s') kPrimary = false /\
    targets_registered (CallPostCommit 1%nat (stub_layers 0)) s' = false.
Proof.
  apply (UnregisterDevice_ignores_siblings stub_ok 0%nat 1%nat stub_twins
           (mkDevice (mkConstraints false) 40%nat kPrimary)
           (mkDevice (mkConstraints false) 40%nat kPrimary) (stub_layers 0)).
  - vm_compute. reflexivity.
  - vm_compute. reflexivity.
  - discriminate.
  - reflexivity.
Defined.

(** The external display registered and committed after the primary one. *)
Lemma Register_then_PostCommit_normal_witness :
  safe_mode_ stub_second = true /\
  exists s2,
    PostCommit stub_ok 1%nat (stub_layers 0) stub_second = Done tt s2 /\
    safe_mode_ s2 = false /\
    registered_displays_ s2
    = SET_BIT (registered_displays_ (stub_committed [])) kHDMI /\
    configured_displays_ s2 = registered_displays_ s2.
Proof.
  apply (Register_then_PostCommit_normal stub_ok kHDMI 0%nat (stub_layers 0)
           (stub_committed []) stub_second 1%nat).
  - vm_compute. reflexivity.
  - vm_compute. reflexivity.
Defined.

(** Out of safe mode after [stub_calls]. *)
Lemma normal_mode_all_configured_witness :
  exists s,
    calls_on_registered stub_ok stub_calls (stub_new []) = Some s /\
    safe_mode_ s = false /\
    configured_displays_ s = registered_displays_ s.
Proof.
  destruct (calls_on_registered stub_ok stub_calls (stub_new [])) as [s|] eqn:E.
  - exists s. split; [reflexivity|].
    assert (Hsafe : safe_mode_ s = false)
      by (vm_compute in E; injection E as <-; vm_compute; reflexivity).
    split; [exact Hsafe|].
    exact (normal_mode_all_configured stub_ok tt [0%nat] [] stub_calls s E
             Hsafe).
  - vm_compute in E. discriminate E.
Defined.

(** [Prepare] without validation failure, in safe mode: the device's
    constraints change, nothing else does. *)
Lemma Prepare_preserves_manager_witness :
  registered_displays_
    (state_after
       (Prepare stub_ok list_strategy list_strategy 3 0%nat (stub_layers 0))
       (stub_ready [5%nat]))
  = registered_displays_ (stub_ready [5%nat]) /\
  safe_mode_
    (state_after
       (Prepare stub_ok list_strategy list_strategy 3 0%nat (stub_layers 0))
       (stub_ready [5%nat]))
  = safe_mode_ (stub_ready [5%nat]) /\
  heap
    (state_after
       (Prepare stub_ok list_strategy list_strategy 3 0%nat (stub_layers 0))
       (stub_ready [5%nat]))
  = <[0%nat := mkDevice (mkConstraints true) 40%nat kPrimary]>
      (heap (stub_ready [5%nat])).
Proof.
  destruct (Prepare_preserves_manager stub_ok list_strategy list_strategy 3
              0%nat (stub_layers 0) (stub_ready [5%nat])
              (state_after
                 (Prepare stub_ok list_strategy list_strategy 3 0%nat
                    (stub_layers 0))
                 (stub_ready [5%nat]))
              (mkDevice (mkConstraints false) 40%nat kPrimary))
    as (Hr & _ & Hs & _ & _ & Hh).
  - vm_compute. reflexivity.
  - vm_compute. reflexivity.
  - split; [exact Hr|]. split; [exact Hs | exact Hh].
Defined.

(** Out of safe mode and without validation failure the strategy is not
    asked for the safe plan. *)
Lemma Prepare_constraints_follow_flag_witness :
  exists rm_device t,
    trace
      (state_after
         (Prepare stub_ok list_strategy list_strategy 3 0%nat (stub_layers 0))
         (stub_committed [5%nat]))
    = trace (stub_committed [5%nat]) ++ EvResStart rm_device :: t /\
    forallb (provider_saw false) t = true /\
    (3%nat <> 0%nat ->
     exists target t',
       t = EvGetNextStrategy target (mkConstraints false)
             (info (stub_layers 0)) :: t').
Proof.
  apply (Prepare_constraints_follow_flag stub_ok list_strategy list_strategy 3
           0%nat (stub_layers 0) (stub_committed [5%nat])
           (state_after
              (Prepare stub_ok list_strategy list_strategy 3 0%nat
                 (stub_layers 0))
              (stub_committed [5%nat]))).
  vm_compute. reflexivity.
Defined.

(** Three rounds, the third candidate accepted. *)
Lemma Prepare_success_brackets_session_witness :
  exists t,
    trace
      (state_after
         (Prepare (stub_from 7) list_strategy list_strategy 3 0%nat
            (stub_layers 0))
         (stub_ready [5; 6; 7; 8]%nat))
    = trace (stub_ready [5; 6; 7; 8]%nat) ++ [EvResStart 40%nat] ++ t
        ++ [EvResStop 40%nat] /\
    forallb (fun e => is_GetNextStrategy e || is_ResAcquire e) t = true /\
    count_events is_GetNextStrategy t = count_events is_ResAcquire t /\
    (1 <= count_events is_ResAcquire t)%nat.
Proof.
  apply (Prepare_success_brackets_session (stub_from 7) list_strategy
           list_strategy 3 0%nat (stub_layers 0)
           (mkLayers (mkInfo 0 7%nat) 0%nat)
           (stub_ready [5; 6; 7; 8]%nat)
           (state_after
              (Prepare (stub_from 7) list_strategy list_strategy 3 0%nat
                 (stub_layers 0))
              (stub_ready [5; 6; 7; 8]%nat))
           (mkDevice (mkConstraints false) 40%nat kPrimary)).
  - vm_compute. reflexivity.
  - vm_compute. reflexivity.
Defined.

(** The error of an exhausted strategy. *)
Lemma Prepare_error_comes_from_strategy_witness :
  strategy_reports list_strategy (kErrorCode 1) \/
  strategy_reports list_strategy (kErrorCode 1).
Proof.
  apply (Prepare_error_comes_from_strategy stub_ok list_strategy list_strategy
           1 0%nat (stub_layers 0) (stub_layers 0) (stub_ready [])
           (state_after
              (Prepare stub_ok list_strategy list_strategy 1 0%nat
                 (stub_layers 0))
              (stub_ready []))
           (kErrorCode 1)).
  - vm_compute. reflexivity.
  - discriminate.
Defined.

(** Five rounds against a resource manager that refuses everything. *)
Lemma Prepare_loops_while_refused_witness :
  exists s',
    Prepare stub_refusing endless_strategy endless_strategy 5 0%nat
      (stub_layers 0) (stub_ready [])
    = Spin s' /\
    count_events is_ResAcquire
      (skipn (length (trace (stub_ready []))) (trace s')) = 5%nat.
Proof.
  apply (Prepare_loops_while_refused stub_refusing endless_strategy
           endless_strategy 0%nat (stub_layers 0) (stub_ready [])
           (mkDevice (mkConstraints false) 40%nat kPrimary) LoadedStrategy).
  - intros c i p. reflexivity.
  - intros c i p. reflexivity.
  - intros h hw_layers r. simpl. discriminate.
  - vm_compute. reflexivity.
  - vm_compute. reflexivity.
Defined.

(** The primary display commits again while the external one is not yet
    configured. *)
Lemma PostCommit_blocked_by_unconfigured_witness :
  exists s',
    PostCommit stub_ok 0%nat (stub_layers 0) stub_second = Done tt s' /\
    safe_mode_ s' = safe_mode_ stub_second /\
    has_type (configured_displays_ s') kHDMI = false.
Proof.
  apply (PostCommit_blocked_by_unconfigured stub_ok 0%nat (stub_layers 0)
           stub_second (mkDevice (mkConstraints false) 40%nat kPrimary)
           kHDMI).
  - vm_compute. reflexivity.
  - discriminate.
  - vm_compute. reflexivity.
  - vm_compute. reflexivity.
Defined.

(** The surviving one of two devices of the primary display commits. *)
Lemma PostCommit_unregistered_type_witness :
  exists s',
    PostCommit stub_ok 1%nat (stub_layers 0) stub_orphan = Done tt s' /\
    ~ subset_bits (configured_displays_ s') (registered_displays_ s') /\
    safe_mode_ s' = safe_mode_ stub_orphan.
Proof.
  apply (PostCommit_unregistered_type stub_ok 1%nat (stub_layers 0)
           stub_orphan (mkDevice (mkConstraints false) 40%nat kPrimary)).
  - vm_compute. reflexivity.
  - vm_compute. reflexivity.
Defined.

(** C9, at an entry function that stores its object and then reports an
    error: the load has failed as line 62 tests it, yet [Init] returns
    [kErrorNone] with the stored object, not [strategy_default_], as the
    active strategy, and with the library still open: no [dlclose] is among
    the events. *)
Theorem Init_entry_error_skips_fallback :
  load_failed loader_entry_error (strategy_intf_ (stub_new [])) /\
  exists s',
    Init stub_ok 0%nat loader_entry_error (stub_new []) = Done kErrorNone s' /\
    strategy_intf_ s' = Some LoadedStrategy /\
    strategy_lib_ s' = Some 7%nat /\
    trace s' = [EvResInit 0%nat; EvDlopen; EvDlsym; EvGetStrategyInterface].
Proof.
  split.
  - right. right. discriminate.
  - eexists. split; [vm_compute; reflexivity|]. repeat split.
Qed.

(** Four candidates, the third being the first one accepted. *)
Lemma Prepare_accepts_Nth_candidate_witness :
  exists s' t layers,
    Prepare (stub_from 7) list_strategy list_strategy 3 0%nat (stub_layers 0)
      (stub_ready [5; 6; 7; 8]%nat)
    = Done (kErrorNone, mkLayers (mkInfo 0 7%nat) 0%nat) s' /\
    strategy_state LoadedStrategy s' = [8%nat] /\
    res_mgr_ s' = tt /\
    trace s'
    = trace (stub_ready [5; 6; 7; 8]%nat) ++ [EvResStart 40%nat] ++ t
        ++ [EvResAcquire 40%nat layers; EvResStop 40%nat] /\
    info layers = mkInfo 0 7%nat /\
    count_events is_GetNextStrategy t = 3%nat /\
    S (count_events is_ResAcquire t) = 3%nat.
Proof.
  apply (Prepare_accepts_Nth_candidate (stub_from 7) list_strategy
           list_strategy 3 3 0%nat (stub_layers 0)
           (stub_ready [5; 6; 7; 8]%nat)
           (mkDevice (mkConstraints false) 40%nat kPrimary)
           LoadedStrategy (mkInfo 0 7%nat) [8%nat] tt
           (mkLayers (mkInfo 0 7%nat) 0%nat)).
  - vm_compute. reflexivity.
  - vm_compute. reflexivity.
  - vm_compute.
    eapply offer_refused; [reflexivity | reflexivity | discriminate |].
    eapply offer_refused; [reflexivity | reflexivity | discriminate |].
    eapply offer_accepted; reflexivity.
  - lia.
Defined.

(** An entry function that fails and stores nothing. *)
Lemma Init_falls_back_on_reported_failure_witness :
  exists s',
    Init stub_ok 0%nat loader_entry_fails (stub_new []) = Done kErrorNone s' /\
    strategy_intf_ s' = Some DefaultStrategy /\
    strategy_lib_ s' = None /\
    (forall lib, Some 7%nat = Some lib ->
       exists t, trace s' = trace (stub_new []) ++ t ++ [EvDlclose lib]).
Proof.
  apply (Init_falls_back_on_reported_failure stub_ok 0%nat loader_entry_fails
           (stub_new []) tt).
  - reflexivity.
  - reflexivity.
  - intros old _. reflexivity.
  - right. right. discriminate.
Defined.
